(** * Response translation of gemini-balance: [app/handler/response_handler.py]

    A shallow embedding of the response handler: the provider's parsed JSON
    response is a dynamically typed value, every Python operation the handler
    performs on it is a total function returning either a value or the
    exception Python raises, and the effects of the handler (random
    identifiers, the clock, the upload backend) are threaded through an
    explicit world. *)

From Stdlib Require Import String Ascii List ZArith QArith Bool Lia.
From Stdlib Require Import Strings.Byte DecimalString.
Import ListNotations.

Local Close Scope Q_scope.
Local Open Scope list_scope.
Local Open Scope string_scope.

Set Warnings "-register-all".

(** ** Values

    What [json.loads] produces, which is what the handler receives.  A str is
    held as its UTF-8 bytes; a dict is held as its items in insertion order,
    each key once, looked up from the front; a float is held as a
    rational. *)

Inductive value : Type :=
| VNone
| VBool (b : bool)
| VInt (n : Z)
| VFloat (q : Q)
| VStr (s : string)
| VList (l : list value)
| VDict (d : list (string * value)).

(** The exceptions the handler can meet.  None is caught anywhere in the
    module: an exception raised by an operation leaves the handler. *)
Inductive exn : Type :=
| AttributeError
| KeyError
| IndexError
| TypeError
| ValueError
| UploadError.

Inductive result (A : Type) : Type :=
| Ok (a : A)
| Raise (e : exn).
Arguments Ok {A} a.
Arguments Raise {A} e.

(** ** Strings *)

Fixpoint str_contains (pat s : string) : bool :=
  String.prefix pat s
  || match s with
     | EmptyString => false
     | String _ s' => str_contains pat s'
     end.

Definition str_endswith (s suffix : string) : bool :=
  let n := String.length s in
  let m := String.length suffix in
  (m <=? n)%nat && String.eqb (String.substring (n - m) m s) suffix.

(** A byte of the form 10xxxxxx continues a UTF-8 sequence. *)
Definition utf8_continuation (c : ascii) : bool :=
  let n := nat_of_ascii c in (128 <=? n)%nat && (n <? 192)%nat.

(** The characters of a str, each as a one-character str. *)
Fixpoint utf8_chars_aux (cur : string) (s : string) : list string :=
  match s with
  | EmptyString => match cur with EmptyString => [] | _ => [cur] end
  | String c s' =>
      if utf8_continuation c
      then utf8_chars_aux (cur ++ String c EmptyString) s'
      else match cur with
           | EmptyString => utf8_chars_aux (String c EmptyString) s'
           | _ => cur :: utf8_chars_aux (String c EmptyString) s'
           end
  end.

Definition utf8_chars (s : string) : list string := utf8_chars_aux EmptyString s.

(** ** Dictionaries *)

Fixpoint lookup (k : string) (d : list (string * value)) : option value :=
  match d with
  | [] => None
  | (k', v) :: d' => if String.eqb k k' then Some v else lookup k d'
  end.

Definition has_key (k : string) (d : list (string * value)) : bool :=
  match lookup k d with Some _ => true | None => false end.

(** [d[k] = v]: the value of an existing key is replaced in place, a new key
    goes to the end. *)
Fixpoint dict_set (k : string) (v : value) (d : list (string * value))
  : list (string * value) :=
  match d with
  | [] => [(k, v)]
  | (k', v') :: d' =>
      if String.eqb k k' then (k, v) :: d' else (k', v') :: dict_set k v d'
  end.

(** ** Python operations on values *)

(** [bool(v)], as [if v], [not v], [v or w] and [v and w] test it. *)
Definition truthy (v : value) : bool :=
  match v with
  | VNone => false
  | VBool b => b
  | VInt n => negb (n =? 0)%Z
  | VFloat q => negb (Qnum q =? 0)%Z
  | VStr s => negb (String.eqb s "")
  | VList l => match l with [] => false | _ => true end
  | VDict d => match d with [] => false | _ => true end
  end.

(** [o.get(k, default)]: only a dict has [get]. *)
Definition py_get (o : value) (k : string) (default : value) : result value :=
  match o with
  | VDict d => Ok (match lookup k d with Some v => v | None => default end)
  | _ => Raise AttributeError
  end.

(** [o[k]] for a str key. *)
Definition py_getitem (o : value) (k : string) : result value :=
  match o with
  | VDict d => match lookup k d with Some v => Ok v | None => Raise KeyError end
  | _ => Raise TypeError
  end.

(** [o[i]] for a non-negative int.  The keys of a parsed object are strs, so
    an int is never a key of a dict. *)
Definition py_index (o : value) (i : nat) : result value :=
  match o with
  | VList l => match nth_error l i with Some v => Ok v | None => Raise IndexError end
  | VStr s =>
      match nth_error (utf8_chars s) i with
      | Some c => Ok (VStr c)
      | None => Raise IndexError
      end
  | VDict _ => Raise KeyError
  | _ => Raise TypeError
  end.

(** [o[i:]].  A dict refuses a slice (TypeError before Python 3.12, KeyError
    from 3.12 on: the model takes the former). *)
Definition py_slice_from (o : value) (i : nat) : result value :=
  match o with
  | VList l => Ok (VList (skipn i l))
  | VStr s => Ok (VStr (String.concat "" (skipn i (utf8_chars s))))
  | _ => Raise TypeError
  end.

(** [len(o)]. *)
Definition py_len (o : value) : result nat :=
  match o with
  | VList l => Ok (List.length l)
  | VStr s => Ok (List.length (utf8_chars s))
  | VDict d => Ok (List.length d)
  | _ => Raise TypeError
  end.

Definition is_str (k : string) (v : value) : bool :=
  match v with VStr s => String.eqb s k | _ => false end.

(** [k in o] for a str [k]: a key of a dict, an element of a list, a substring
    of a str. *)
Definition py_in (k : string) (o : value) : result bool :=
  match o with
  | VDict d => Ok (has_key k d)
  | VList l => Ok (existsb (is_str k) l)
  | VStr s => Ok (str_contains k s)
  | _ => Raise TypeError
  end.

(** The elements [for x in o] runs over. *)
Definition py_iter (o : value) : result (list value) :=
  match o with
  | VList l => Ok l
  | VStr s => Ok (map VStr (utf8_chars s))
  | VDict d => Ok (map (fun kv => VStr (fst kv)) d)
  | _ => Raise TypeError
  end.

(** [s + v] (and [s += v]) for a str [s]. *)
Definition py_str_add (s : string) (v : value) : result string :=
  match v with
  | VStr t => Ok (s ++ t)
  | _ => Raise TypeError
  end.

(** [o[k] = v]. *)
Definition py_setitem (o : value) (k : string) (v : value) : result value :=
  match o with
  | VDict d => Ok (VDict (dict_set k v d))
  | _ => Raise TypeError
  end.

Definition isinstance_list (v : value) : bool :=
  match v with VList _ => true | _ => false end.

Definition isinstance_dict (v : value) : bool :=
  match v with VDict _ => true | _ => false end.

(** [v += s] for a str [s]: a str is extended, a list takes the characters of
    [s] one by one, anything else refuses. *)
Definition py_iadd_str (v : value) (s : string) : result value :=
  match v with
  | VStr t => Ok (VStr (t ++ s))
  | VList l => Ok (VList (l ++ map VStr (utf8_chars s))%list)
  | _ => Raise TypeError
  end.

(** ** Exceptions and effects

    [result] is the monad of the pure helpers.  [M W] adds the world [W] the
    effects act on; an exception keeps the world reached when it was raised. *)

Definition bindR {A B} (r : result A) (f : A -> result B) : result B :=
  match r with
  | Ok a => f a
  | Raise e => Raise e
  end.

Definition M (W A : Type) : Type := W -> result A * W.

Definition ret {W A} (a : A) : M W A := fun w => (Ok a, w).

Definition raise {W A} (e : exn) : M W A := fun w => (Raise e, w).

Definition bind {W A B} (m : M W A) (f : A -> M W B) : M W B :=
  fun w =>
    match m w with
    | (Ok a, w') => f a w'
    | (Raise e, w') => (Raise e, w')
    end.

Definition lift {W A} (r : result A) : M W A := fun w => (r, w).

(** An effect that cannot fail. *)
Definition perform {W A} (f : W -> A * W) : M W A :=
  fun w => let (a, w') := f w in (Ok a, w').

Declare Scope py_scope.
Delimit Scope py_scope with py.
Notation "x <- r ;; k" := (bindR r (fun x => k))
  (at level 61, r at next level, right associativity) : py_scope.
Notation "x <~ m ;; k" := (bind m (fun x => k))
  (at level 61, m at next level, right associativity) : py_scope.
Notation "' p <~ m ;; k" := (bind m (fun x => let p := x in k))
  (at level 61, p pattern, m at next level, right associativity) : py_scope.
Local Open Scope py_scope.

(** ** Collaborators outside the module *)

(** [app.config.config.settings], read and never written by the handler. *)
Record Settings : Type := {
  SHOW_THINKING_PROCESS : bool;
  SHOW_SEARCH_LINK : bool;
  UPLOAD_PROVIDER : string;
  SMMS_SECRET_TOKEN : string;
  PICGO_API_KEY : string;
  CLOUDFLARE_IMGBED_URL : string;
  CLOUDFLARE_IMGBED_AUTH_CODE : string
}.

(** The settings with SHOW_THINKING_PROCESS set to [b]. *)
Definition with_thinking (settings : Settings) (b : bool) : Settings := {|
  SHOW_THINKING_PROCESS := b;
  SHOW_SEARCH_LINK := SHOW_SEARCH_LINK settings;
  UPLOAD_PROVIDER := UPLOAD_PROVIDER settings;
  SMMS_SECRET_TOKEN := SMMS_SECRET_TOKEN settings;
  PICGO_API_KEY := PICGO_API_KEY settings;
  CLOUDFLARE_IMGBED_URL := CLOUDFLARE_IMGBED_URL settings;
  CLOUDFLARE_IMGBED_AUTH_CODE := CLOUDFLARE_IMGBED_AUTH_CODE settings
|}.

(** What [image_uploader.upload] returns: [success] and, read only after a
    success, [data.url]. *)
Record UploadResponse : Type := {
  success : bool;
  data_url : string
}.

(** [image_uploader.upload(bytes_data, filename)]. *)
Definition Uploader (W : Type) : Type :=
  list byte -> string -> M W UploadResponse.

(** The Python runtime and the libraries the handler calls. *)
Record Runtime (W : Type) : Type := {
  (** [s.lower()] and [s.strip()] of a str *)
  str_lower : string -> string;
  str_strip : string -> string;
  (** [str(v)] of a value that is not a str, as an f-string formats it *)
  py_str : value -> string;
  (** [json.dumps(v)] *)
  json_dumps : value -> string;
  (** [base64.b64decode(v)] *)
  b64decode : value -> result (list byte);
  (** [uuid.uuid4().hex]: 32 hexadecimal digits *)
  uuid4_hex : W -> string * W;
  (** [int(time.time())] *)
  time_time : W -> Z * W;
  (** [time.strftime(<year/month/day>)] *)
  time_strftime : W -> string * W;
  (** the 32 characters [random.sample(letters, 32)] draws, joined *)
  random_sample : W -> string * W;
  (** [ImageUploaderFactory.create(provider=..., **kwargs)] *)
  ImageUploaderFactory_create : string -> list (string * string) -> Uploader W
}.
Arguments str_lower {W} _ _.
Arguments str_strip {W} _ _.
Arguments py_str {W} _ _.
Arguments json_dumps {W} _ _.
Arguments b64decode {W} _ _.
Arguments uuid4_hex {W} _ _.
Arguments time_time {W} _ _.
Arguments time_strftime {W} _ _.
Arguments random_sample {W} _ _.
Arguments ImageUploaderFactory_create {W} _ _ _.

(** [str(u)] of a UUID with hexadecimal digits [h]: groups of 8-4-4-4-12. *)
Definition uuid_str (h : string) : string :=
  String.substring 0 8 h ++ "-" ++ String.substring 8 4 h ++ "-"
  ++ String.substring 12 4 h ++ "-" ++ String.substring 16 4 h ++ "-"
  ++ String.substring 20 12 h.

(** The line feed of the templates. *)
Definition nl : string := String (ascii_of_nat 10) EmptyString.

(** ** The handler *)

Section Handler.

Context {W : Type}.
Variable rt : Runtime W.
Variable settings : Settings.

(** How an f-string formats a value: a str as it is, anything else through
    [str]. *)
Definition py_format (v : value) : string :=
  match v with
  | VStr s => s
  | _ => py_str rt v
  end.

(** [v.lower()] and [v.strip()]: methods of a str only. *)
Definition py_lower (v : value) : result string :=
  match v with
  | VStr s => Ok (str_lower rt s)
  | _ => Raise AttributeError
  end.

Definition py_strip (v : value) : result string :=
  match v with
  | VStr s => Ok (str_strip rt s)
  | _ => Raise AttributeError
  end.

Definition _format_code_block (code_data : value) : result string :=
  l <- py_get code_data "language" (VStr "") ;;
  language <- py_lower l ;;
  c <- py_get code_data "code" (VStr "") ;;
  code <- py_strip c ;;
  Ok (nl ++ nl ++ "---" ++ nl ++ nl ++ "【代码执行】" ++ nl
      ++ "```" ++ language ++ nl ++ code ++ nl ++ "```" ++ nl).

Definition _format_execution_result (result_data : value) : result string :=
  outcome <- py_get result_data "outcome" (VStr "") ;;
  o <- py_get result_data "output" (VStr "") ;;
  output <- py_strip o ;;
  Ok (nl ++ "【执行结果】" ++ nl ++ "> outcome: " ++ py_format outcome ++ nl ++ nl
      ++ "【输出结果】" ++ nl ++ "```plaintext" ++ nl ++ output ++ nl ++ "```"
      ++ nl ++ nl ++ "---" ++ nl ++ nl).

Definition _create_search_link (grounding_chunk : value) : result string :=
  title <- py_getitem grounding_chunk "title" ;;
  uri <- py_getitem grounding_chunk "uri" ;;
  Ok (nl ++ "- [" ++ py_format title ++ "](" ++ py_format uri ++ ")").

(** The [for] loop of [_add_search_link_text]. *)
Fixpoint search_links (grounding_chunks : list value) (text : value)
  : result value :=
  match grounding_chunks with
  | [] => Ok text
  | grounding_chunk :: rest =>
      b <- py_in "web" grounding_chunk ;;
      if b then
        web <- py_getitem grounding_chunk "web" ;;
        link <- _create_search_link web ;;
        text' <- py_iadd_str text link ;;
        search_links rest text'
      else search_links rest text
  end.

(** The condition of [_add_search_link_text], its four conjuncts tested from
    left to right. *)
Definition search_link_gate (model : string) (candidate : value) : result bool :=
  if SHOW_SEARCH_LINK settings && str_endswith model "-search" then
    b <- py_in "groundingMetadata" candidate ;;
    if b then
      gm <- py_getitem candidate "groundingMetadata" ;;
      py_in "groundingChunks" gm
    else Ok false
  else Ok false.

Definition _add_search_link_text (model : string) (candidate : value)
    (text : value) : result value :=
  gate <- search_link_gate model candidate ;;
  if gate then
    gm <- py_getitem candidate "groundingMetadata" ;;
    grounding_chunks <- py_getitem gm "groundingChunks" ;;
    text1 <- py_iadd_str text (nl ++ nl ++ "---" ++ nl ++ nl) ;;
    text2 <- py_iadd_str text1 ("**【引用来源】**" ++ nl ++ nl) ;;
    chunks <- py_iter grounding_chunks ;;
    search_links chunks text2
  else Ok text.

(** The uploader [_extract_image_data] selects: none when the configured
    provider is not one of the three it knows. *)
Definition image_uploader : option (Uploader W) :=
  if String.eqb (UPLOAD_PROVIDER settings) "smms" then
    Some (ImageUploaderFactory_create rt (UPLOAD_PROVIDER settings)
            [("api_key", SMMS_SECRET_TOKEN settings)])
  else if String.eqb (UPLOAD_PROVIDER settings) "picgo" then
    Some (ImageUploaderFactory_create rt (UPLOAD_PROVIDER settings)
            [("api_key", PICGO_API_KEY settings)])
  else if String.eqb (UPLOAD_PROVIDER settings) "cloudflare_imgbed" then
    Some (ImageUploaderFactory_create rt (UPLOAD_PROVIDER settings)
            [("base_url", CLOUDFLARE_IMGBED_URL settings);
             ("auth_code", CLOUDFLARE_IMGBED_AUTH_CODE settings)])
  else None.

Definition _extract_image_data (part : value) : M W string :=
  current_date <~ perform (time_strftime rt) ;;
  hex <~ perform (uuid4_hex rt) ;;
  let filename := current_date ++ "/" ++ String.substring 0 8 hex ++ ".png" in
  inline <~ lift (py_getitem part "inlineData") ;;
  base64_data <~ lift (py_getitem inline "data") ;;
  bytes_data <~ lift (b64decode rt base64_data) ;;
  match image_uploader with
  | None => raise AttributeError
  | Some uploader =>
      upload_response <~ uploader bytes_data filename ;;
      if success upload_response
      then ret (nl ++ nl ++ "![image](" ++ data_url upload_response ++ ")" ++ nl ++ nl)
      else ret ""
  end.

(** The target-format tool call built for the fragment at position [i]. *)
Definition tool_call (i : nat) (id : string) (name : value) (arguments : string)
  : value :=
  VDict [("index", VInt (Z.of_nat i));
         ("id", VStr id);
         ("type", VStr "function");
         ("function", VDict [("name", name); ("arguments", VStr arguments)])].

(** [a or {}]. *)
Definition or_empty_dict (a : value) : value :=
  if truthy a then a else VDict [].

(** The loop of [_extract_tool_calls], at position [i] of the fragments. *)
Fixpoint tool_calls_loop (gemini_format : bool) (i : nat) (parts : list value)
  : M W (list value) :=
  match parts with
  | [] => ret []
  | part :: rest =>
      if negb (truthy part) || negb (isinstance_dict part)
      then tool_calls_loop gemini_format (S i) rest
      else
        item <~ lift (py_get part "functionCall" (VDict [])) ;;
        if negb (truthy item) || negb (isinstance_dict item)
        then tool_calls_loop gemini_format (S i) rest
        else if gemini_format then
          tool_calls <~ tool_calls_loop gemini_format (S i) rest ;;
          ret (part :: tool_calls)
        else
          sample <~ perform (random_sample rt) ;;
          let id := "call_" ++ sample in
          name <~ lift (py_get item "name" (VStr "")) ;;
          args <~ lift (py_get item "args" VNone) ;;
          let arguments := json_dumps rt (or_empty_dict args) in
          tool_calls <~ tool_calls_loop gemini_format (S i) rest ;;
          ret (tool_call i id name arguments :: tool_calls)
  end.

Definition _extract_tool_calls (parts : value) (gemini_format : bool)
  : M W (list value) :=
  if negb (truthy parts) || negb (isinstance_list parts) then ret []
  else
    match parts with
    | VList l => tool_calls_loop gemini_format 0 l
    | _ => ret []
    end.

(** The test that makes the first fragment a thought:
    [parts[0].get(thought) or (thinking in model and len(parts) >= 2)]. *)
Definition thinking_condition (model : string) (parts : value) : result bool :=
  p0 <- py_index parts 0 ;;
  tagged <- py_get p0 "thought" VNone ;;
  if truthy tagged then Ok true
  else if str_contains "thinking" model then
    n <- py_len parts ;;
    Ok (2 <=? n)%nat
  else Ok false.

(** The thought and the start index the test leads to. *)
Definition thinking_step (model : string) (parts : value)
  : result (value * nat) :=
  fires <- thinking_condition model parts ;;
  if fires then
    if SHOW_THINKING_PROCESS settings then
      p0 <- py_index parts 0 ;;
      thought <- py_get p0 "text" (VStr "") ;;
      Ok (thought, 1%nat)
    else Ok (VNone, 1%nat)
  else Ok (VNone, 0%nat).

(** The chain of tests of the streaming branch on the current fragment. *)
Definition stream_text (current_part : value) : M W value :=
  is_text <~ lift (py_in "text" current_part) ;;
  if is_text then lift (py_get current_part "text" VNone)
  else
  is_code <~ lift (py_in "executableCode" current_part) ;;
  if is_code then
    code <~ lift (py_getitem current_part "executableCode") ;;
    s <~ lift (_format_code_block code) ;;
    ret (VStr s)
  else
  is_exec <~ lift (py_in "codeExecution" current_part) ;;
  if is_exec then
    code <~ lift (py_getitem current_part "codeExecution") ;;
    s <~ lift (_format_code_block code) ;;
    ret (VStr s)
  else
  is_code_result <~ lift (py_in "executableCodeResult" current_part) ;;
  if is_code_result then
    r <~ lift (py_getitem current_part "executableCodeResult") ;;
    s <~ lift (_format_execution_result r) ;;
    ret (VStr s)
  else
  is_exec_result <~ lift (py_in "codeExecutionResult" current_part) ;;
  if is_exec_result then
    r <~ lift (py_getitem current_part "codeExecutionResult") ;;
    s <~ lift (_format_execution_result r) ;;
    ret (VStr s)
  else
  is_inline <~ lift (py_in "inlineData" current_part) ;;
  if is_inline then
    s <~ _extract_image_data current_part ;;
    ret (VStr s)
  else ret (VStr "").

(** One turn of the loop of the non-streaming branch: what [part] adds to
    [text]. *)
Definition normal_text (text : string) (part : value) : M W string :=
  is_text <~ lift (py_in "text" part) ;;
  if is_text then
    t <~ lift (py_get part "text" (VStr "")) ;;
    lift (py_str_add text t)
  else
  is_inline <~ lift (py_in "inlineData" part) ;;
  if is_inline then
    s <~ _extract_image_data part ;;
    ret (text ++ s)
  else
  is_code <~ lift (py_in "executableCode" part) ;;
  if is_code then
    code <~ lift (py_getitem part "executableCode") ;;
    s <~ lift (_format_code_block code) ;;
    ret (text ++ s)
  else
  is_exec <~ lift (py_in "codeExecution" part) ;;
  if is_exec then
    code <~ lift (py_getitem part "codeExecution") ;;
    s <~ lift (_format_code_block code) ;;
    ret (text ++ s)
  else
  is_code_result <~ lift (py_in "executableCodeResult" part) ;;
  if is_code_result then
    r <~ lift (py_getitem part "executableCodeResult") ;;
    s <~ lift (_format_execution_result r) ;;
    ret (text ++ s)
  else
  is_exec_result <~ lift (py_in "codeExecutionResult" part) ;;
  if is_exec_result then
    r <~ lift (py_getitem part "codeExecutionResult") ;;
    s <~ lift (_format_execution_result r) ;;
    ret (text ++ s)
  else ret text.

Fixpoint normal_loop (text : string) (parts : list value) : M W string :=
  match parts with
  | [] => ret text
  | part :: rest =>
      text' <~ normal_text text part ;;
      normal_loop text' rest
  end.

(** The text, the tool calls and the thought ([VNone] when there is none). *)
Definition extraction : Type := value * list value * value.

Definition _extract_result (response : value) (model : string)
    (stream gemini_format : bool) : M W extraction :=
  if stream then
    candidates <~ lift (py_get response "candidates" VNone) ;;
    if truthy candidates then
      candidate <~ lift (cs <- py_getitem response "candidates" ;; py_index cs 0) ;;
      content <~ lift (py_get candidate "content" (VDict [])) ;;
      parts <~ lift (py_get content "parts" (VList [])) ;;
      if negb (truthy parts) then ret (VStr "", [], VNone)
      else
        '(thought, start_index) <~ lift (thinking_step model parts) ;;
        current_part <~ lift (n <- py_len parts ;;
                              if (start_index <? n)%nat
                              then py_index parts start_index
                              else Ok (VDict [])) ;;
        text <~ stream_text current_part ;;
        text <~ lift (_add_search_link_text model candidate text) ;;
        rest <~ lift (py_slice_from parts start_index) ;;
        tool_calls <~ _extract_tool_calls rest gemini_format ;;
        ret (text, tool_calls, thought)
    else ret (VStr "", [], VNone)
  else
    candidates <~ lift (py_get response "candidates" VNone) ;;
    if truthy candidates then
      candidate <~ lift (cs <- py_getitem response "candidates" ;; py_index cs 0) ;;
      parts <~ lift (content <- py_get candidate "content" (VDict []) ;;
                     py_get content "parts" (VList [])) ;;
      '(thought, start_index) <~
         lift (if truthy parts then thinking_step model parts
               else Ok (VNone, 0%nat)) ;;
      items <~ lift (rest <- py_slice_from parts start_index ;; py_iter rest) ;;
      text <~ normal_loop "" items ;;
      text <~ lift (_add_search_link_text model candidate (VStr text)) ;;
      rest <~ lift (py_slice_from parts start_index) ;;
      tool_calls <~ _extract_tool_calls rest gemini_format ;;
      ret (text, tool_calls, thought)
    else ret (VStr "暂无返回", [], VNone).

(** *** Target-format builders *)

(** The usage block both target builders write from [usage_metadata]. *)
Definition usage_block (usage_metadata : value) : result value :=
  prompt <- py_get usage_metadata "promptTokenCount" (VInt 0) ;;
  completion <- py_get usage_metadata "candidatesTokenCount" (VInt 0) ;;
  total <- py_get usage_metadata "totalTokenCount" (VInt 0) ;;
  Ok (VDict [("prompt_tokens", prompt);
             ("completion_tokens", completion);
             ("total_tokens", total)]).

(** The delta of a streaming chunk. *)
Definition stream_delta (text : value) (tool_calls : list value) : value :=
  if negb (truthy text) && negb (truthy (VList tool_calls)) then VDict []
  else
    let delta := [("content", text); ("role", VStr "assistant")] in
    if truthy (VList tool_calls)
    then VDict (dict_set "tool_calls" (VList tool_calls) delta)
    else VDict delta.

Definition _handle_openai_stream_response (response : value) (model : string)
    (finish_reason usage_metadata : value) : M W value :=
  '(text, tool_calls, _) <~ _extract_result response model true false ;;
  let delta := stream_delta text tool_calls in
  hex <~ perform (uuid4_hex rt) ;;
  created <~ perform (time_time rt) ;;
  let template_chunk :=
    [("id", VStr ("chatcmpl-" ++ uuid_str hex));
     ("object", VStr "chat.completion.chunk");
     ("created", VInt created);
     ("model", VStr model);
     ("choices", VList [VDict [("index", VInt 0);
                               ("delta", delta);
                               ("finish_reason", finish_reason)]])] in
  if truthy usage_metadata then
    usage <~ lift (usage_block usage_metadata) ;;
    ret (VDict (dict_set "usage" usage template_chunk))
  else ret (VDict template_chunk).

Definition _handle_openai_normal_response (response : value) (model : string)
    (finish_reason usage_metadata : value) : M W value :=
  '(text, tool_calls, thought) <~ _extract_result response model false false ;;
  hex <~ perform (uuid4_hex rt) ;;
  created <~ perform (time_time rt) ;;
  usage <~ lift (usage_block usage_metadata) ;;
  let response_data :=
    [("id", VStr ("chatcmpl-" ++ uuid_str hex));
     ("object", VStr "chat.completion");
     ("created", VInt created);
     ("model", VStr model);
     ("choices", VList [VDict [("index", VInt 0);
                               ("message", VDict [("role", VStr "assistant");
                                                  ("content", text);
                                                  ("tool_calls", VList tool_calls)]);
                               ("finish_reason", finish_reason)]]);
     ("usage", usage)] in
  if truthy thought
  then ret (VDict (dict_set "thought" thought response_data))
  else ret (VDict response_data).

Definition _handle_openai_stream_image_response (image_str : value)
    (model : string) (finish_reason : value) : M W value :=
  hex <~ perform (uuid4_hex rt) ;;
  created <~ perform (time_time rt) ;;
  ret (VDict [("id", VStr ("chatcmpl-" ++ uuid_str hex));
              ("object", VStr "chat.completion.chunk");
              ("created", VInt created);
              ("model", VStr model);
              ("choices", VList [VDict [("index", VInt 0);
                                        ("delta", if truthy image_str
                                                  then VDict [("content", image_str)]
                                                  else VDict []);
                                        ("finish_reason", finish_reason)]])]).

Definition _handle_openai_normal_image_response (image_str : value)
    (model : string) (finish_reason : value) : M W value :=
  hex <~ perform (uuid4_hex rt) ;;
  created <~ perform (time_time rt) ;;
  ret (VDict [("id", VStr ("chatcmpl-" ++ uuid_str hex));
              ("object", VStr "chat.completion");
              ("created", VInt created);
              ("model", VStr model);
              ("choices", VList [VDict [("index", VInt 0);
                                        ("message", VDict [("role", VStr "assistant");
                                                           ("content", image_str)]);
                                        ("finish_reason", finish_reason)]]);
              ("usage", VDict [("prompt_tokens", VInt 0);
                               ("completion_tokens", VInt 0);
                               ("total_tokens", VInt 0)])]).

(** *** Native-format builders *)

(** [response[candidates][0][content] = content].  The assignment writes
    into the caller's response, which the builders then return: the model
    returns the response as it is after the write. *)
Definition set_candidate_content (response content : value) : result value :=
  candidates <- py_getitem response "candidates" ;;
  candidate <- py_index candidates 0 ;;
  candidate' <- py_setitem candidate "content" content ;;
  match response, candidates with
  | VDict d, VList (_ :: others) =>
      Ok (VDict (dict_set "candidates" (VList (candidate' :: others)) d))
  | _, _ => Raise TypeError
  end.

Definition _handle_gemini_stream_response (response : value) (model : string)
    (stream : bool) : M W value :=
  '(text, tool_calls, _) <~ _extract_result response model stream true ;;
  let content :=
    if truthy (VList tool_calls)
    then VDict [("parts", VList tool_calls); ("role", VStr "model")]
    else VDict [("parts", VList [VDict [("text", text)]]); ("role", VStr "model")] in
  lift (set_candidate_content response content).

Definition _handle_gemini_normal_response (response : value) (model : string)
    (stream : bool) : M W value :=
  '(text, tool_calls, thought) <~ _extract_result response model stream true ;;
  let content :=
    if truthy (VList tool_calls)
    then VDict [("parts", VList tool_calls); ("role", VStr "model")]
    else match thought with
         | VNone =>
             VDict [("parts", VList [VDict [("text", text)]]); ("role", VStr "model")]
         | _ =>
             VDict [("parts", VList [VDict [("text", thought); ("thought", VBool true)];
                                     VDict [("text", text)]]);
                    ("role", VStr "model")]
         end in
  lift (set_candidate_content response content).

(** *** The handler classes

    Both classes set [thinking_first] and [thinking_status] when an instance
    is made; no method reads or writes them. *)

Record GeminiResponseHandler : Type := {
  gemini_thinking_first : bool;
  gemini_thinking_status : bool
}.

Definition GeminiResponseHandler_init : GeminiResponseHandler :=
  {| gemini_thinking_first := true; gemini_thinking_status := false |}.

Definition GeminiResponseHandler_handle_response (self : GeminiResponseHandler)
    (response : value) (model : string) (stream : bool) (usage_metadata : value)
  : M W value :=
  if stream then _handle_gemini_stream_response response model stream
  else _handle_gemini_normal_response response model stream.

Record OpenAIResponseHandler : Type := {
  openai_config : value;
  openai_thinking_first : bool;
  openai_thinking_status : bool
}.



Definition OpenAIResponseHandler_handle_image_chat_response
    (self : OpenAIResponseHandler) (image_str : value) (model : string)
    (stream : bool) (finish_reason : value) : M W value :=
  if stream then _handle_openai_stream_image_response image_str model finish_reason
  else _handle_openai_normal_image_response image_str model finish_reason.

(** ** The shapes the properties speak of *)

(** [o.get(k, default)] of a dict given by its items. *)
Definition get_or (k : string) (default : value) (d : list (string * value))
  : value :=
  match lookup k d with Some v => v | None => default end.

(** The response has no candidate: the key is missing or holds an empty (or
    otherwise false) value. *)
Definition candidates_absent (response : value) : bool :=
  match response with
  | VDict d => negb (truthy (get_or "candidates" VNone d))
  | _ => false
  end.

(** The first candidate of a response whose candidates are a list that starts
    with a dict. *)
Definition first_candidate (response : value) : option value :=
  match response with
  | VDict d =>
      match lookup "candidates" d with
      | Some (VList (VDict c :: _)) => Some (VDict c)
      | _ => None
      end
  | _ => None
  end.

(** The first candidate has no fragment: its content is missing, or a dict
    with no parts or with an empty list of parts. *)
Definition parts_absent (response : value) : bool :=
  match first_candidate response with
  | Some (VDict c) =>
      match lookup "content" c with
      | None => true
      | Some (VDict ct) =>
          match lookup "parts" ct with
          | None => true
          | Some (VList []) => true
          | _ => false
          end
      | _ => false
      end
  | _ => false
  end.

(** The first candidate and its fragments, for a response that holds a list
    of them. *)
Definition fragments_of (response : value) : option (value * list value) :=
  match first_candidate response with
  | Some (VDict c) =>
      match lookup "content" c with
      | Some (VDict ct) =>
          match lookup "parts" ct with
          | Some (VList parts) => Some (VDict c, parts)
          | _ => None
          end
      | _ => None
      end
  | _ => None
  end.

(** The first fragment is a thought: it is tagged as one, or the model names
    thinking and there are at least two fragments. *)
Definition thought_classified (model : string) (parts : list value) : bool :=
  match parts with
  | VDict p0 :: _ =>
      truthy (get_or "thought" VNone p0)
      || (str_contains "thinking" model && (2 <=? List.length parts)%nat)
  | _ => false
  end.

(** The text of the first fragment, the empty str when it has none. *)
Definition first_text (parts : list value) : value :=
  match parts with
  | VDict p0 :: _ => get_or "text" (VStr "") p0
  | _ => VStr ""
  end.

(** The index extraction starts from. *)
Definition start_of (model : string) (parts : list value) : nat :=
  if thought_classified model parts then 1 else 0.

(** A fragment [_extract_tool_calls] makes a tool call of: a dict whose
    functionCall is a dict that is not empty. *)
Definition is_function_call (part : value) : bool :=
  match part with
  | VDict d =>
      match lookup "functionCall" d with
      | Some (VDict (_ :: _)) => true
      | _ => false
      end
  | _ => false
  end.

(** The positions, counted from [i], of the fragments that are function
    calls. *)
Fixpoint function_call_positions (i : nat) (parts : list value) : list nat :=
  match parts with
  | [] => []
  | part :: rest =>
      if is_function_call part
      then i :: function_call_positions (S i) rest
      else function_call_positions (S i) rest
  end.

(** The index a target-format tool call carries. *)
Definition tool_call_index (tool_call : value) : option Z :=
  match tool_call with
  | VDict d =>
      match lookup "index" d with
      | Some (VInt n) => Some n
      | _ => None
      end
  | _ => None
  end.

Definition has_index (p : nat) (tool_call : value) : bool :=
  match tool_call_index tool_call with
  | Some n => (n =? Z.of_nat p)%Z
  | None => false
  end.


(** What extraction does with the fragments [frags] left once the start index
    is known and the thought is set. *)
Definition extraction_from (model : string) (candidate : value)
    (stream gemini_format : bool) (frags : list value) (thought : value)
  : M W extraction :=
  if stream then
    text <~ stream_text (hd (VDict []) frags) ;;
    text <~ lift (_add_search_link_text model candidate text) ;;
    tool_calls <~ tool_calls_loop gemini_format 0 frags ;;
    ret (text, tool_calls, thought)
  else
    text <~ normal_loop "" frags ;;
    text <~ lift (_add_search_link_text model candidate (VStr text)) ;;
    tool_calls <~ tool_calls_loop gemini_format 0 frags ;;
    ret (text, tool_calls, thought).

(** Two outcomes agree up to [R]: both return, values related by [R], or both
    raise the same exception. *)
Definition agree {A} (R : A -> A -> Prop) (r1 r2 : result A) : Prop :=
  match r1, r2 with
  | Ok a, Ok b => R a b
  | Raise e1, Raise e2 => e1 = e2
  | _, _ => False
  end.







(** [usage_metadata] as its type admits it: None or a dict. *)
Definition usage_ok (usage_metadata : value) : bool :=
  match usage_metadata with
  | VNone | VDict _ => true
  | _ => false
  end.

(** [chunk[choices][0][delta]] and [data[choices][0][message]]. *)
Definition chunk_delta (chunk : value) : result value :=
  choices <- py_getitem chunk "choices" ;;
  choice <- py_index choices 0 ;;
  py_getitem choice "delta".

Definition choice_message (data : value) : result value :=
  choices <- py_getitem data "choices" ;;
  choice <- py_index choices 0 ;;
  py_getitem choice "message".

(** [out[candidates][0][content][parts]] of a native-format output. *)
Definition content_parts (out : value) : result value :=
  candidates <- py_getitem out "candidates" ;;
  candidate <- py_index candidates 0 ;;
  content <- py_getitem candidate "content" ;;
  py_getitem content "parts".

(** No citation section is written for the candidate under the model: the
    setting SHOW_SEARCH_LINK is off, or the name of the model does not end in
    -search, or the candidate is a dict with no key groundingMetadata, or a
    dict whose groundingMetadata is a dict with no key groundingChunks.  The
    key alone decides: a groundingChunks that holds an empty list is not in
    this case.  Written from these words, not from [search_link_gate]. *)
Definition citations_off (model : string) (candidate : value) : bool :=
  negb (SHOW_SEARCH_LINK settings)
  || negb (str_endswith model "-search")
  || match candidate with
     | VDict c =>
         match lookup "groundingMetadata" c with
         | None => true
         | Some (VDict grounding_metadata) =>
             match lookup "groundingChunks" grounding_metadata with
             | None => true
             | Some _ => false
             end
         | Some _ => false
         end
     | _ => false
     end.

End Handler.


Arguments _extract_result {W} rt settings response model stream gemini_format _.
Arguments _extract_tool_calls {W} rt parts gemini_format _.
Arguments _extract_image_data {W} rt settings part _.

(** ** A deterministic runtime to run the model on

    A stand-in for the Python runtime, used only to evaluate the model on the
    inputs of the examples.  The world is a counter of the draws made so far.
    The str methods are those of Python on ASCII strs.  [str_std] is Python's
    [str] on None, bools, ints and strs only: it abbreviates a list and a
    dict and writes a float as its fraction.  [json_dumps_std] is Python's
    [json.dumps] on None, bools, ints, strs of printable ASCII with no quote
    and no backslash, and lists and dicts of these only: it escapes nothing
    and writes a float as its fraction.  The decoder is the lenient base64
    decoder of the standard library on a str.  The backend accepts an upload
    when its first credential is not empty and hosts it under the file name
    it was given.  No property below is stated about these stand-ins: the
    theorems hold for every runtime, and the examples stay within the inputs
    on which the stand-ins are Python's. *)

Definition dq : string := String (ascii_of_nat 34) EmptyString.

Definition ascii_lower (c : ascii) : ascii :=
  let n := nat_of_ascii c in
  if (65 <=? n)%nat && (n <=? 90)%nat then ascii_of_nat (n + 32) else c.

Fixpoint lower_std (s : string) : string :=
  match s with
  | EmptyString => EmptyString
  | String c s' => String (ascii_lower c) (lower_std s')
  end.

Definition ascii_space (c : ascii) : bool :=
  let n := nat_of_ascii c in
  ((9 <=? n)%nat && (n <=? 13)%nat) || (28 <=? n)%nat && (n <=? 32)%nat.

Fixpoint lstrip_std (s : string) : string :=
  match s with
  | EmptyString => EmptyString
  | String c s' => if ascii_space c then lstrip_std s' else s
  end.

Fixpoint rstrip_std (s : string) : string :=
  match s with
  | EmptyString => EmptyString
  | String c s' =>
      match rstrip_std s' with
      | EmptyString => if ascii_space c then EmptyString else String c EmptyString
      | r => String c r
      end
  end.

Definition strip_std (s : string) : string := rstrip_std (lstrip_std s).

Definition decimal (n : Z) : string := NilZero.string_of_int (Z.to_int n).

(** Python's [str] on None, bools, ints and strs; a list, a dict and a float
    are abbreviated, which is not what Python prints. *)
Definition str_std (v : value) : string :=
  match v with
  | VNone => "None"
  | VBool true => "True"
  | VBool false => "False"
  | VInt n => decimal n
  | VFloat q => decimal (Qnum q) ++ "/" ++ decimal (Zpos (Qden q))
  | VStr s => s
  | VList _ => "[...]"
  | VDict _ => "{...}"
  end.

(** Python's [json.dumps] on None, bools, ints, strs that need no escape and
    lists and dicts of these; a str that holds a quote, a backslash, a
    control character or a character outside ASCII, and a float, are not
    written as Python writes them. *)
Fixpoint json_dumps_std (v : value) : string :=
  match v with
  | VNone => "null"
  | VBool true => "true"
  | VBool false => "false"
  | VInt n => decimal n
  | VFloat q => decimal (Qnum q) ++ "/" ++ decimal (Zpos (Qden q))
  | VStr s => dq ++ s ++ dq
  | VList l => "[" ++ String.concat ", " (map json_dumps_std l) ++ "]"
  | VDict d =>
      "{" ++ String.concat ", "
               (map (fun kv => dq ++ fst kv ++ dq ++ ": " ++ json_dumps_std (snd kv)) d)
      ++ "}"
  end.

(** The value of a character of the base64 alphabet. *)
Definition b64_digit (c : ascii) : option nat :=
  let n := nat_of_ascii c in
  if (65 <=? n)%nat && (n <=? 90)%nat then Some (n - 65)
  else if (97 <=? n)%nat && (n <=? 122)%nat then Some (n - 71)
  else if (48 <=? n)%nat && (n <=? 57)%nat then Some (n + 4)
  else if (n =? 43)%nat then Some 62
  else if (n =? 47)%nat then Some 63
  else None.

Definition byte_of_nat (n : nat) : byte := byte_of_ascii (ascii_of_nat n).

(** The lenient decoder: a character outside the alphabet is skipped, a pad
    that completes a group ends the input, and an incomplete last group is
    an error. *)
Fixpoint a2b_base64 (s : string) (quad_pos leftchar pads : nat)
  : result (list byte) :=
  match s with
  | EmptyString => if (quad_pos =? 0)%nat then Ok [] else Raise ValueError
  | String c s' =>
      if (nat_of_ascii c =? 61)%nat then
        if (2 <=? quad_pos)%nat && (4 <=? quad_pos + S pads)%nat then Ok []
        else a2b_base64 s' quad_pos leftchar
               (if (2 <=? quad_pos)%nat then S pads else pads)
      else
        match b64_digit c with
        | None => a2b_base64 s' quad_pos leftchar pads
        | Some d =>
            match quad_pos with
            | 0 => a2b_base64 s' 1 d 0
            | 1 =>
                out <- a2b_base64 s' 2 (d mod 16) 0 ;;
                Ok (byte_of_nat (leftchar * 4 + d / 16) :: out)
            | 2 =>
                out <- a2b_base64 s' 3 (d mod 4) 0 ;;
                Ok (byte_of_nat (leftchar * 16 + d / 4) :: out)
            | _ =>
                out <- a2b_base64 s' 0 0 0 ;;
                Ok (byte_of_nat (leftchar * 64 + d) :: out)
            end
        end
  end.

Definition ascii_only (s : string) : bool :=
  forallb (fun c => (nat_of_ascii c <? 128)%nat) (list_ascii_of_string s).

Definition b64decode_std (v : value) : result (list byte) :=
  match v with
  | VStr s => if ascii_only s then a2b_base64 s 0 0 0 else Raise ValueError
  | _ => Raise TypeError
  end.

Definition hex_digit (n : nat) : ascii :=
  ascii_of_nat (if (n <? 10)%nat then 48 + n else 87 + n).

Fixpoint hex_digits (len n : nat) : string :=
  match len with
  | O => EmptyString
  | S len' => hex_digits len' (n / 16) ++ String (hex_digit (n mod 16)) EmptyString
  end.

Definition letters : string := "abcdefghijklmnopqrstuvwxyz0123456789".

Definition uploader_std (credentials : list (string * string)) : Uploader nat :=
  fun bytes_data filename w =>
    match credentials with
    | (_, String _ _) :: _ =>
        (Ok {| success := true; data_url := "https://img.example/" ++ filename |}, S w)
    | _ => (Ok {| success := false; data_url := "" |}, S w)
    end.

Definition runtime_std : Runtime nat := {|
  str_lower := lower_std;
  str_strip := strip_std;
  py_str := str_std;
  json_dumps := json_dumps_std;
  b64decode := b64decode_std;
  uuid4_hex := fun w => (hex_digits 32 w, S w);
  time_time := fun w => (1700000000 + Z.of_nat w, S w)%Z;
  time_strftime := fun w => ("2025/01/01", S w);
  random_sample := fun w =>
    (String.substring (w mod 5) 32 letters, S w);
  ImageUploaderFactory_create := fun provider credentials => uploader_std credentials
|}.

Definition settings_std : Settings := {|
  SHOW_THINKING_PROCESS := true;
  SHOW_SEARCH_LINK := true;
  UPLOAD_PROVIDER := "smms";
  SMMS_SECRET_TOKEN := "token";
  PICGO_API_KEY := "";
  CLOUDFLARE_IMGBED_URL := "";
  CLOUDFLARE_IMGBED_AUTH_CODE := ""
|}.

(** A response whose first candidate holds the fragments [parts]. *)
Definition response_of (parts : list value) : value :=
  VDict [("candidates", VList [VDict [("content", VDict [("parts", VList parts);
                                                         ("role", VStr "model")])]])].

(** The inputs of the examples. *)

Definition text_part (s : string) : value := VDict [("text", VStr s)].

Definition hello_response : value := response_of [text_part "Hello"].

(** The fragments of the thinking scenario of the specification. *)
Definition thinking_model : string := "gemini-2.0-flash-thinking".

Definition thinking_response : value :=
  response_of [text_part "reasoning..."; text_part "answer"].

Definition lookup_call : value :=
  VDict [("functionCall",
          VDict [("name", VStr "lookup"); ("args", VDict [("q", VStr "x")])])].

Definition tool_response : value := response_of [text_part "Hello"; lookup_call].

(** [json.dumps] of the arguments of [lookup_call]. *)
Definition lookup_arguments : string :=
  "{" ++ dq ++ "q" ++ dq ++ ": " ++ dq ++ "x" ++ dq ++ "}".

Definition image_part (data : string) : value :=
  VDict [("inlineData", VDict [("mimeType", VStr "image/png"); ("data", VStr data)])].

(** Settings under which the backend refuses every upload. *)
Definition settings_failing_upload : Settings := {|
  SHOW_THINKING_PROCESS := true;
  SHOW_SEARCH_LINK := true;
  UPLOAD_PROVIDER := "smms";
  SMMS_SECRET_TOKEN := "";
  PICGO_API_KEY := "";
  CLOUDFLARE_IMGBED_URL := "";
  CLOUDFLARE_IMGBED_AUTH_CODE := ""
|}.

(** A fragment with both inline data and executable code. *)
Definition image_and_code_part : value :=
  VDict [("inlineData", VDict [("mimeType", VStr "image/png"); ("data", VStr "aGk=")]);
         ("executableCode", VDict [("language", VStr "PYTHON"); ("code", VStr "print(1)")])].

(** A response with one web citation, for a model with the search suffix. *)
Definition search_model : string := "gemini-pro-search".

Definition grounding : value :=
  VDict [("groundingChunks",
          VList [VDict [("web", VDict [("title", VStr "Doc"); ("uri", VStr "http://x")])]])].

Definition grounded_response (text : string) : value :=
  VDict [("candidates",
          VList [VDict [("content", VDict [("parts", VList [text_part text]);
                                           ("role", VStr "model")]);
                        ("groundingMetadata", grounding)]])].

Definition citations : string :=
  nl ++ nl ++ "---" ++ nl ++ nl ++ "**【引用来源】**" ++ nl ++ nl
  ++ nl ++ "- [Doc](http://x)".

(** A thought with no text, before an answer and before a function call. *)
Definition bare_thought : value := VDict [("thought", VBool true)].

Definition bare_thought_response : value :=
  response_of [bare_thought; text_part "answer"].

Definition bare_thought_call_response : value :=
  response_of [bare_thought; lookup_call].

(** * Properties *)

Section Properties.

Context {W : Type}.
Variable rt : Runtime W.
Variable st : Settings.

(** ** The monad *)

Lemma bind_lift_ok {A B} (a : A) (f : A -> M W B) :
  bind (lift (Ok a)) f = f a.
Proof. reflexivity. Qed.

Lemma bind_ret {A B} (a : A) (f : A -> M W B) : bind (ret a) f = f a.
Proof. reflexivity. Qed.

Lemma bind_ok {A B} (m : M W A) (f : A -> M W B) (w w' : W) (a : A) :
  m w = (Ok a, w') -> bind m f w = f a w'.
Proof. unfold bind; intros ->; reflexivity. Qed.

(** A bind that returns went through both of its halves. *)
Lemma bind_inv {A B} (m : M W A) (f : A -> M W B) (w w' : W) (b : B) :
  bind m f w = (Ok b, w') ->
  exists a w1, m w = (Ok a, w1) /\ f a w1 = (Ok b, w').
Proof.
  unfold bind; destruct (m w) as [[a|e] w1]; intros H.
  - exists a, w1; split; [reflexivity | exact H].
  - discriminate.
Qed.

(** ** Lists and dicts *)

Lemma current_part_hd (l : list value) (i : nat) :
  (if (i <? List.length l)%nat then py_index (VList l) i else Ok (VDict []))
  = Ok (hd (VDict []) (skipn i l)).
Proof.
  revert i; induction l as [|x l IH]; intros [|i]; try reflexivity.
  cbn [List.length skipn]. specialize (IH i).
  change (S i <? S (List.length l))%nat with (i <? List.length l)%nat.
  cbn [py_index nth_error] in *. exact IH.
Qed.

Lemma extract_tool_calls_list (l : list value) (gemini_format : bool) :
  _extract_tool_calls rt (VList l) gemini_format
  = tool_calls_loop rt gemini_format 0 l.
Proof. destruct l; reflexivity. Qed.

Lemma lookup_dict_set_other (k k' : string) (v : value) d :
  String.eqb k k' = false -> lookup k (dict_set k' v d) = lookup k d.
Proof.
  intros Hk; induction d as [|[k0 v0] d IH]; cbn.
  - rewrite Hk; reflexivity.
  - destruct (String.eqb k' k0) eqn:E; cbn.
    + apply String.eqb_eq in E; subst k0. rewrite Hk; reflexivity.
    + destruct (String.eqb k k0); [reflexivity | exact IH].
Qed.

Lemma lookup_dict_set_same (k : string) (v : value) d :
  lookup k (dict_set k v d) = Some v.
Proof.
  induction d as [|[k0 v0] d IH]; cbn.
  - rewrite String.eqb_refl; reflexivity.
  - destruct (String.eqb k k0) eqn:E; cbn.
    + rewrite String.eqb_refl; reflexivity.
    + rewrite E; exact IH.
Qed.

(** ** The shape of a response *)

Lemma fragments_of_shape (response candidate : value) (parts : list value) :
  fragments_of response = Some (candidate, parts) ->
  exists d c ct others,
    response = VDict d /\ candidate = VDict c
    /\ lookup "candidates" d = Some (VList (VDict c :: others))
    /\ lookup "content" c = Some (VDict ct)
    /\ lookup "parts" ct = Some (VList parts).
Proof.
  unfold fragments_of, first_candidate.
  destruct response as [| | | | | |d]; try discriminate.
  destruct (lookup "candidates" d) as [[| | | | |[|[| | | | | |c] others]|]|] eqn:Hc;
    try discriminate.
  destruct (lookup "content" c) as [[| | | | | |ct]|] eqn:Hct; try discriminate.
  destruct (lookup "parts" ct) as [[| | | | |parts'|]|] eqn:Hp; try discriminate.
  intros H; inversion H; subst.
  exists d, c, ct, others; repeat split; assumption.
Qed.

Lemma thinking_step_list (model : string) (parts : list value) p0 rest :
  parts = VDict p0 :: rest ->
  thinking_step st model (VList parts)
  = Ok (if thought_classified model parts && SHOW_THINKING_PROCESS st
        then first_text parts else VNone,
        start_of model parts).
Proof.
  intros ->.
  unfold thinking_step, thinking_condition, start_of, thought_classified, first_text.
  cbn [py_index nth_error bindR py_get py_len get_or].
  fold (get_or "thought" VNone p0).
  destruct (truthy (get_or "thought" VNone p0)); cbn [orb bindR].
  - destruct (SHOW_THINKING_PROCESS st); reflexivity.
  - destruct (str_contains "thinking" model); cbn [andb bindR].
    + destruct (2 <=? List.length (VDict p0 :: rest))%nat; cbn [andb];
        destruct (SHOW_THINKING_PROCESS st); reflexivity.
    + reflexivity.
Qed.

Lemma extract_result_fragments (response candidate : value) p0 rest
    (model : string) (stream gemini_format : bool) (w : W) :
  let parts := VDict p0 :: rest in
  fragments_of response = Some (candidate, parts) ->
  _extract_result rt st response model stream gemini_format w
  = extraction_from rt st model candidate stream gemini_format
      (skipn (start_of model parts) parts)
      (if thought_classified model parts && SHOW_THINKING_PROCESS st
       then first_text parts else VNone) w.
Proof.
  intros parts Hf.
  destruct (fragments_of_shape _ _ _ Hf) as (d & c & ct & others & -> & -> & Hc & Hct & Hp).
  unfold _extract_result, extraction_from.
  destruct stream.
  - unfold bind at 1. unfold lift at 1. cbn [py_get]. rewrite Hc. cbn [truthy].
    unfold bind at 1. unfold lift at 1. cbn [py_getitem bindR]. rewrite Hc.
    cbn [bindR py_index nth_error].
    unfold bind at 1. unfold lift at 1. cbn [py_get]. rewrite Hct.
    unfold bind at 1. unfold lift at 1. cbn [py_get]. rewrite Hp.
    cbn [truthy negb].
    unfold bind at 1. unfold lift at 1.
    rewrite (thinking_step_list model parts p0 rest eq_refl).
    unfold bind at 1. unfold lift at 1.
    cbn [py_len bindR].
    rewrite current_part_hd.
    cbn [parts negb py_slice_from]. 
    unfold bind at 3. unfold lift at 2.
    rewrite extract_tool_calls_list. reflexivity.
  - unfold bind at 1. unfold lift at 1. cbn [py_get]. rewrite Hc. cbn [truthy].
    unfold bind at 1. unfold lift at 1. cbn [py_getitem bindR]. rewrite Hc.
    cbn [bindR py_index nth_error].
    unfold bind at 1. unfold lift at 1. cbn [py_get bindR]. rewrite Hct.
    cbn [py_get]. rewrite Hp.
    unfold bind at 1. unfold lift at 1. cbn [truthy parts].
    rewrite (thinking_step_list model parts p0 rest eq_refl).
    unfold bind at 1. unfold lift at 1.
    cbn [py_slice_from py_iter bindR].
    unfold bind at 3. unfold lift at 2.
    rewrite extract_tool_calls_list. reflexivity.
Qed.

Lemma extraction_from_thought (model : string) (candidate : value)
    (stream gemini_format : bool) (frags : list value) (thought : value)
    (w w' : W) text tool_calls thought' :
  extraction_from rt st model candidate stream gemini_format frags thought w
  = (Ok (text, tool_calls, thought'), w') ->
  thought' = thought.
Proof.
  unfold extraction_from; destruct stream; intros H;
    apply bind_inv in H; destruct H as (t1 & w1 & _ & H);
    apply bind_inv in H; destruct H as (t2 & w2 & _ & H);
    apply bind_inv in H; destruct H as (tcs & w3 & _ & H);
    inversion H; reflexivity.
Qed.

(** C4.  For a response whose fragments start with a dict, the test the
    extraction runs on the first fragment succeeds exactly when the fragment
    is tagged as thought, or the model names thinking and there are at least
    two fragments.  Extraction then runs on the fragments without the first
    one when the test succeeds and on all of them otherwise; the thought it
    returns is the text of the first fragment when the test succeeds and
    SHOW_THINKING_PROCESS is on, and None in every other case. *)
Theorem thought_classification (response candidate : value)
    (p0 : list (string * value)) (rest : list value)
    (model : string) (stream gemini_format : bool) (w : W) :
  fragments_of response = Some (candidate, VDict p0 :: rest) ->
  exists fires : bool,
    thinking_condition model (VList (VDict p0 :: rest)) = Ok fires
    /\ (fires = true <->
        truthy (get_or "thought" VNone p0) = true
        \/ (str_contains "thinking" model = true
            /\ 2 <= List.length (VDict p0 :: rest)))
    /\ _extract_result rt st response model stream gemini_format w
       = extraction_from rt st model candidate stream gemini_format
           (if fires then rest else VDict p0 :: rest)
           (if fires
            then if SHOW_THINKING_PROCESS st
                 then get_or "text" (VStr "") p0 else VNone
            else VNone) w
    /\ (forall text tool_calls thought w',
          _extract_result rt st response model stream gemini_format w
          = (Ok (text, tool_calls, thought), w') ->
          thought = if fires
                    then if SHOW_THINKING_PROCESS st
                         then get_or "text" (VStr "") p0 else VNone
                    else VNone).
Proof.
  intros Hf.
  exists (thought_classified model (VDict p0 :: rest)).
  assert (Hx : _extract_result rt st response model stream gemini_format w
       = extraction_from rt st model candidate stream gemini_format
           (if thought_classified model (VDict p0 :: rest)
            then rest else VDict p0 :: rest)
           (if thought_classified model (VDict p0 :: rest)
            then if SHOW_THINKING_PROCESS st
                 then get_or "text" (VStr "") p0 else VNone
            else VNone) w).
  { rewrite (extract_result_fragments _ _ _ _ _ _ _ _ Hf).
    unfold start_of, first_text.
    destruct (thought_classified model (VDict p0 :: rest)); reflexivity. }
  split; [|split; [|split]].
  - unfold thinking_condition, thought_classified.
    cbn [py_index nth_error bindR py_get py_len].
    fold (get_or "thought" VNone p0).
    destruct (truthy (get_or "thought" VNone p0)); [reflexivity|].
    destruct (str_contains "thinking" model); reflexivity.
  - unfold thought_classified.
    rewrite orb_true_iff, andb_true_iff, Nat.leb_le. reflexivity.
  - exact Hx.
  - intros text tool_calls thought w' H. rewrite Hx in H.
    exact (extraction_from_thought _ _ _ _ _ _ _ _ _ _ _ H).
Qed.

(** ** Tool calls *)

Lemma tool_calls_loop_target (parts : list value) :
  forall (i : nat) (w : W),
  exists tool_calls w',
    tool_calls_loop rt false i parts w = (Ok tool_calls, w')
    /\ map tool_call_index tool_calls
       = map (fun p => Some (Z.of_nat p)) (function_call_positions i parts).
Proof.
  induction parts as [|part rest IH]; intros i w.
  - exists [], w; split; reflexivity.
  - cbn [tool_calls_loop function_call_positions].
    destruct part as [| | | | | |d];
      try (cbn [isinstance_dict negb orb is_function_call];
           rewrite ?orb_true_r; exact (IH (S i) w)).
    destruct d as [|kv d]; [exact (IH (S i) w)|].
    cbn [truthy negb orb isinstance_dict is_function_call py_get].
    rewrite bind_lift_ok.
    destruct (lookup "functionCall" (kv :: d)) as [item|];
      [|exact (IH (S i) w)].
    destruct item as [| | | | | |f];
      try (cbn [isinstance_dict negb orb];
           rewrite ?orb_true_r; exact (IH (S i) w)).
    destruct f as [|kf f]; [exact (IH (S i) w)|].
    cbn [truthy negb orb isinstance_dict py_get].
    unfold bind at 1, perform at 1.
    destruct (random_sample rt w) as [sample w1].
    rewrite !bind_lift_ok.
    destruct (IH (S i) w1) as (tcs & w' & Hl & Hm).
    exists (tool_call i ("call_" ++ sample)
              (get_or "name" (VStr "") (kf :: f))
              (json_dumps rt (or_empty_dict (get_or "args" VNone (kf :: f))))
            :: tcs), w'.
    split.
    + unfold bind at 1. rewrite Hl. reflexivity.
    + cbn [map]. rewrite Hm. reflexivity.
Qed.

Lemma count_has_index (p : nat) (tool_calls : list value) :
  forall positions,
  map tool_call_index tool_calls = map (fun q => Some (Z.of_nat q)) positions ->
  List.length (filter (has_index p) tool_calls)
  = count_occ Nat.eq_dec positions p.
Proof.
  induction tool_calls as [|tc tcs IH]; intros [|q qs] H; try discriminate.
  - reflexivity.
  - cbn [map] in H. injection H as Hq Hqs.
    cbn [filter count_occ]. unfold has_index at 1. rewrite Hq.
    destruct (Nat.eq_dec q p) as [->|Hne].
    + rewrite Z.eqb_refl. cbn [List.length]. f_equal. exact (IH _ Hqs).
    + destruct (Z.eqb_spec (Z.of_nat q) (Z.of_nat p)) as [E|_].
      * apply Nat2Z.inj in E. contradiction.
      * exact (IH _ Hqs).
Qed.

Lemma positions_below (parts : list value) :
  forall i p, p < i -> count_occ Nat.eq_dec (function_call_positions i parts) p = 0.
Proof.
  induction parts as [|part rest IH]; intros i p Hp; [reflexivity|].
  cbn [function_call_positions].
  destruct (is_function_call part).
  - cbn [count_occ]. destruct (Nat.eq_dec i p); [lia|]. apply IH; lia.
  - apply IH; lia.
Qed.

Lemma positions_once (parts : list value) :
  forall i k part,
  nth_error parts k = Some part ->
  is_function_call part = true ->
  count_occ Nat.eq_dec (function_call_positions i parts) (i + k) = 1.
Proof.
  induction parts as [|x rest IH]; intros i [|k] part Hn Hfc;
    try discriminate.
  - cbn in Hn. injection Hn as ->.
    cbn [function_call_positions]. rewrite Hfc. cbn [count_occ].
    rewrite Nat.add_0_r.
    destruct (Nat.eq_dec i i); [|contradiction].
    f_equal. apply positions_below. lia.
  - cbn [nth_error] in Hn.
    cbn [function_call_positions].
    replace (i + S k) with (S i + k) by lia.
    destruct (is_function_call x).
    + cbn [count_occ]. destruct (Nat.eq_dec i (S i + k)); [lia|].
      exact (IH (S i) k part Hn Hfc).
    + exact (IH (S i) k part Hn Hfc).
Qed.

(** ** Extraction on fragments that are empty or start with no dict *)

Lemma extract_result_no_fragments (response candidate : value)
    (model : string) (stream gemini_format : bool) (w : W) :
  fragments_of response = Some (candidate, []) ->
  _extract_result rt st response model stream gemini_format w
  = if stream then (Ok (VStr "", [], VNone), w)
    else (text <- _add_search_link_text rt st model candidate (VStr "") ;;
          Ok (text, [], VNone), w).
Proof.
  intros Hf.
  destruct (fragments_of_shape _ _ _ Hf) as (d & c & ct & others & -> & -> & Hc & Hct & Hp).
  unfold _extract_result.
  destruct stream.
  - unfold bind at 1. unfold lift at 1. cbn [py_get]. rewrite Hc. cbn [truthy].
    unfold bind at 1. unfold lift at 1. cbn [py_getitem bindR]. rewrite Hc.
    cbn [bindR py_index nth_error].
    unfold bind at 1. unfold lift at 1. cbn [py_get]. rewrite Hct.
    unfold bind at 1. unfold lift at 1. cbn [py_get]. rewrite Hp.
    reflexivity.
  - unfold bind at 1. unfold lift at 1. cbn [py_get]. rewrite Hc. cbn [truthy].
    unfold bind at 1. unfold lift at 1. cbn [py_getitem bindR]. rewrite Hc.
    cbn [bindR py_index nth_error].
    unfold bind at 1. unfold lift at 1. cbn [py_get bindR]. rewrite Hct.
    cbn [py_get]. rewrite Hp.
    unfold bind at 1. unfold lift at 1. cbn [truthy].
    unfold bind at 1. unfold lift at 1.
    cbn [py_slice_from py_iter bindR skipn normal_loop].
    rewrite bind_ret.
    unfold bind at 1. unfold lift at 1.
    destruct (_add_search_link_text rt st model (VDict c) (VStr "")); reflexivity.
Qed.

Lemma extract_result_bad_head (response candidate x : value) (rest : list value)
    (model : string) (stream gemini_format : bool) (w : W) :
  fragments_of response = Some (candidate, x :: rest) ->
  isinstance_dict x = false ->
  _extract_result rt st response model stream gemini_format w
  = (Raise AttributeError, w).
Proof.
  intros Hf Hx.
  destruct (fragments_of_shape _ _ _ Hf) as (d & c & ct & others & -> & -> & Hc & Hct & Hp).
  assert (Ht : thinking_step st model (VList (x :: rest)) = Raise AttributeError).
  { unfold thinking_step, thinking_condition. cbn [py_index nth_error bindR].
    destruct x; try reflexivity; discriminate. }
  unfold _extract_result.
  destruct stream.
  - unfold bind at 1. unfold lift at 1. cbn [py_get]. rewrite Hc. cbn [truthy].
    unfold bind at 1. unfold lift at 1. cbn [py_getitem bindR]. rewrite Hc.
    cbn [bindR py_index nth_error].
    unfold bind at 1. unfold lift at 1. cbn [py_get]. rewrite Hct.
    unfold bind at 1. unfold lift at 1. cbn [py_get]. rewrite Hp.
    cbn [truthy negb].
    unfold bind at 1. unfold lift at 1. rewrite Ht. reflexivity.
  - unfold bind at 1. unfold lift at 1. cbn [py_get]. rewrite Hc. cbn [truthy].
    unfold bind at 1. unfold lift at 1. cbn [py_getitem bindR]. rewrite Hc.
    cbn [bindR py_index nth_error].
    unfold bind at 1. unfold lift at 1. cbn [py_get bindR]. rewrite Hct.
    cbn [py_get]. rewrite Hp.
    unfold bind at 1. unfold lift at 1. cbn [truthy].
    rewrite Ht. reflexivity.
Qed.

(** The tool calls an extraction in target format returns carry the
    positions of the function calls among the fragments it started from. *)
Lemma extraction_from_indexes (model : string) (candidate : value)
    (stream : bool) (frags : list value) (thought : value)
    (w w' : W) text tool_calls thought' :
  extraction_from rt st model candidate stream false frags thought w
  = (Ok (text, tool_calls, thought'), w') ->
  map tool_call_index tool_calls
  = map (fun p => Some (Z.of_nat p)) (function_call_positions 0 frags).
Proof.
  unfold extraction_from; destruct stream; intros H;
    apply bind_inv in H; destruct H as (t1 & w1 & _ & H);
    apply bind_inv in H; destruct H as (t2 & w2 & _ & H);
    apply bind_inv in H; destruct H as (tcs & w3 & Hl & H);
    destruct (tool_calls_loop_target frags 0 w2) as (tcs' & w4 & Hl' & Hm);
    rewrite Hl' in Hl; inversion Hl; subst; inversion H; subst; exact Hm.
Qed.

(** C5.  When extraction in target format returns, the indexes of its tool
    calls are, in order, the positions of the function-call fragments within
    the fragments left after the thought is skipped.  In particular, when the
    first fragment is not a thought, a function-call fragment at position p
    of the sequence yields exactly one tool call whose index is p. *)
Theorem tool_call_index_position (response candidate : value)
    (parts : list value) (model : string) (stream : bool) (w w' : W)
    (text : value) (tool_calls : list value) (thought : value) :
  fragments_of response = Some (candidate, parts) ->
  _extract_result rt st response model stream false w
  = (Ok (text, tool_calls, thought), w') ->
  map tool_call_index tool_calls
  = map (fun p => Some (Z.of_nat p))
      (function_call_positions 0 (skipn (start_of model parts) parts))
  /\ (thought_classified model parts = false ->
      forall p part,
        nth_error parts p = Some part ->
        is_function_call part = true ->
        List.length (filter (has_index p) tool_calls) = 1).
Proof.
  intros Hf Hx.
  assert (Hm : map tool_call_index tool_calls
    = map (fun p => Some (Z.of_nat p))
        (function_call_positions 0 (skipn (start_of model parts) parts))).
  { destruct parts as [|x rest].
    - rewrite (extract_result_no_fragments _ _ _ _ _ _ Hf) in Hx.
      destruct stream.
      + inversion Hx; reflexivity.
      + destruct (_add_search_link_text rt st model candidate (VStr ""));
          inversion Hx; reflexivity.
    - destruct (isinstance_dict x) eqn:Hd.
      + destruct x as [| | | | | |p0]; try discriminate.
        rewrite (extract_result_fragments _ _ _ _ _ _ _ _ Hf) in Hx.
        exact (extraction_from_indexes _ _ _ _ _ _ _ _ _ _ Hx).
      + rewrite (extract_result_bad_head _ _ _ _ _ _ _ _ Hf Hd) in Hx.
        discriminate. }
  split; [exact Hm|].
  intros Hnt p part Hn Hfc.
  rewrite (count_has_index p tool_calls _ Hm).
  unfold start_of. rewrite Hnt. cbn [skipn].
  exact (positions_once parts 0 p part Hn Hfc).
Qed.

(** ** The target-format builders *)

Lemma stream_delta_empty (text : value) (tool_calls : list value) :
  stream_delta text tool_calls = VDict []
  <-> truthy text = false /\ tool_calls = [].
Proof.
  unfold stream_delta. split.
  - destruct (truthy text); cbn [negb andb].
    + destruct tool_calls; cbn [truthy]; discriminate.
    + destruct tool_calls; cbn [truthy negb]; [auto | discriminate].
  - intros [-> ->]. reflexivity.
Qed.

Lemma stream_delta_tool_calls (text : value) (tool_calls : list value) :
  (tool_calls = [] -> py_in "tool_calls" (stream_delta text tool_calls) = Ok false)
  /\ (tool_calls <> [] ->
      py_getitem (stream_delta text tool_calls) "tool_calls" = Ok (VList tool_calls)).
Proof.
  unfold stream_delta. split.
  - intros ->. destruct (truthy text); reflexivity.
  - intros Hne. destruct tool_calls as [|tc tcs]; [contradiction|].
    cbn [truthy negb andb]. rewrite andb_false_r. reflexivity.
Qed.

Lemma usage_block_dict (u : list (string * value)) :
  usage_block (VDict u)
  = Ok (VDict [("prompt_tokens", get_or "promptTokenCount" (VInt 0) u);
               ("completion_tokens", get_or "candidatesTokenCount" (VInt 0) u);
               ("total_tokens", get_or "totalTokenCount" (VInt 0) u)]).
Proof. reflexivity. Qed.

Lemma stream_response_chunk (response : value) (model : string)
    (finish_reason usage_metadata : value) (w w1 : W)
    (text : value) (tool_calls : list value) (thought : value) :
  _extract_result rt st response model true false w
  = (Ok (text, tool_calls, thought), w1) ->
  usage_ok usage_metadata = true ->
  exists chunk w2,
    _handle_openai_stream_response rt st response model finish_reason
      usage_metadata w = (Ok chunk, w2)
    /\ chunk_delta chunk = Ok (stream_delta text tool_calls).
Proof.
  intros Hx Hu.
  unfold _handle_openai_stream_response.
  rewrite (bind_ok _ _ _ _ _ Hx). cbv beta iota.
  unfold bind at 1, perform at 1. destruct (uuid4_hex rt w1) as [hex w2].
  unfold bind at 1, perform at 1. destruct (time_time rt w2) as [created w3].
  destruct usage_metadata as [| | | | | |u]; try discriminate.
  - eexists _, w3. split; reflexivity.
  - destruct (truthy (VDict u)).
    + rewrite usage_block_dict, bind_lift_ok.
      eexists _, w3. split; reflexivity.
    + eexists _, w3. split; reflexivity.
Qed.

(** C6.  The streaming builder returns a chunk whose delta is the empty dict
    exactly when the extracted text is empty (false, as the builder tests it)
    and there is no tool call; the delta has no tool_calls key when there is
    no tool call and holds the tool calls otherwise.  The full-message
    builder returns a message that always has the tool_calls key, with the
    extracted list, empty or not. *)
Theorem delta_and_message_tool_calls (response : value) (model : string)
    (finish_reason usage_metadata : value) (w : W) :
  (forall text tool_calls thought w1,
      _extract_result rt st response model true false w
      = (Ok (text, tool_calls, thought), w1) ->
      usage_ok usage_metadata = true ->
      exists chunk w2,
        _handle_openai_stream_response rt st response model finish_reason
          usage_metadata w = (Ok chunk, w2)
        /\ chunk_delta chunk = Ok (stream_delta text tool_calls)
        /\ (stream_delta text tool_calls = VDict []
            <-> truthy text = false /\ tool_calls = [])
        /\ (tool_calls = [] ->
            py_in "tool_calls" (stream_delta text tool_calls) = Ok false)
        /\ (tool_calls <> [] ->
            py_getitem (stream_delta text tool_calls) "tool_calls"
            = Ok (VList tool_calls)))
  /\ (forall text tool_calls thought w1,
      _extract_result rt st response model false false w
      = (Ok (text, tool_calls, thought), w1) ->
      isinstance_dict usage_metadata = true ->
      exists data w2,
        _handle_openai_normal_response rt st response model finish_reason
          usage_metadata w = (Ok data, w2)
        /\ (message <- choice_message data ;; py_getitem message "tool_calls")
           = Ok (VList tool_calls)).
Proof.
  split.
  - intros text tool_calls thought w1 Hx Hu.
    destruct (stream_response_chunk _ model finish_reason _ _ _ _ _ _ Hx Hu)
      as (chunk & w2 & Hb & Hd).
    exists chunk, w2. split; [exact Hb|]. split; [exact Hd|].
    split; [apply stream_delta_empty | apply stream_delta_tool_calls].
  - intros text tool_calls thought w1 Hx Hu.
    unfold _handle_openai_normal_response.
    rewrite (bind_ok _ _ _ _ _ Hx). cbv beta iota.
    unfold bind at 1, perform at 1. destruct (uuid4_hex rt w1) as [hex w2].
    unfold bind at 1, perform at 1. destruct (time_time rt w2) as [created w3].
    destruct usage_metadata as [| | | | | |u]; try discriminate.
    rewrite usage_block_dict, bind_lift_ok.
    destruct (truthy thought); eexists _, w3; split; reflexivity.
Qed.


(** ** Responses with no content *)

Lemma extract_result_no_candidates (response : value) (model : string)
    (stream gemini_format : bool) (w : W) :
  candidates_absent response = true ->
  _extract_result rt st response model stream gemini_format w
  = (Ok (VStr (if stream then "" else "暂无返回"), [], VNone), w).
Proof.
  unfold candidates_absent, get_or.
  destruct response as [| | | | | |d]; try discriminate.
  intros H. apply negb_true_iff in H.
  unfold _extract_result.
  destruct stream; unfold bind at 1; unfold lift at 1; cbn [py_get];
    rewrite H; reflexivity.
Qed.

Lemma extract_result_no_parts (response candidate : value) (model : string)
    (stream gemini_format : bool) (w : W) :
  parts_absent response = true ->
  first_candidate response = Some candidate ->
  _extract_result rt st response model stream gemini_format w
  = if stream then (Ok (VStr "", [], VNone), w)
    else (text <- _add_search_link_text rt st model candidate (VStr "") ;;
          Ok (text, [], VNone), w).
Proof.
  unfold parts_absent. intros Hp Hfc. rewrite Hfc in Hp.
  unfold first_candidate in Hfc.
  destruct response as [| | | | | |d]; try discriminate.
  destruct (lookup "candidates" d) as [[| | | | |[|[| | | | | |c] others]|]|] eqn:Hc;
    try discriminate.
  injection Hfc as <-.
  assert (Hparts : (content <- py_get (VDict c) "content" (VDict []) ;;
                    py_get content "parts" (VList [])) = Ok (VList [])).
  { cbn [py_get bindR].
    destruct (lookup "content" c) as [[| | | | | |ct]|]; try discriminate;
      [|reflexivity].
    cbn [py_get].
    destruct (lookup "parts" ct) as [[| | | | |[|x l]|]|]; try discriminate;
      reflexivity. }
  unfold _extract_result.
  destruct stream.
  - unfold bind at 1. unfold lift at 1. cbn [py_get]. rewrite Hc. cbn [truthy].
    unfold bind at 1. unfold lift at 1. cbn [py_getitem bindR]. rewrite Hc.
    cbn [bindR py_index nth_error].
    cbn [py_get bindR] in Hparts.
    unfold bind at 1. unfold lift at 1. cbn [py_get].
    destruct (lookup "content" c) as [content|].
    + unfold bind at 1. unfold lift at 1. rewrite Hparts. reflexivity.
    + reflexivity.
  - unfold bind at 1. unfold lift at 1. cbn [py_get]. rewrite Hc. cbn [truthy].
    unfold bind at 1. unfold lift at 1. cbn [py_getitem bindR]. rewrite Hc.
    cbn [bindR py_index nth_error].
    unfold bind at 1. unfold lift at 1. rewrite Hparts.
    unfold bind at 1. unfold lift at 1. cbn [truthy].
    unfold bind at 1. unfold lift at 1.
    cbn [py_slice_from py_iter bindR skipn normal_loop].
    rewrite bind_ret.
    unfold bind at 1. unfold lift at 1.
    destruct (_add_search_link_text rt st model (VDict c) (VStr "")); reflexivity.
Qed.

Lemma add_search_link_text_closed (model : string) (candidate text : value) :
  search_link_gate st model candidate = Ok false ->
  _add_search_link_text rt st model candidate text = Ok text.
Proof. unfold _add_search_link_text; intros ->; reflexivity. Qed.

(** C1 (amended).  A response with no candidate extracts, without raising, to
    the placeholder text when not streaming and to the empty text when
    streaming, with no tool call and no thought.  A response whose first
    candidate has no fragment extracts to the empty text, no tool call and
    no thought when streaming; when not streaming it extracts to what the
    citation step makes of the empty text, which is the empty text when the
    citation gate is closed.  In all these cases the streaming builder of the
    target format returns a chunk whose delta is the empty dict. *)
Theorem no_content_extraction (response : value) (model : string)
    (gemini_format : bool) (finish_reason usage_metadata : value) (w : W) :
  (candidates_absent response = true ->
     _extract_result rt st response model false gemini_format w
     = (Ok (VStr "暂无返回", [], VNone), w)
     /\ _extract_result rt st response model true gemini_format w
        = (Ok (VStr "", [], VNone), w))
  /\ (parts_absent response = true ->
      _extract_result rt st response model true gemini_format w
      = (Ok (VStr "", [], VNone), w)
      /\ forall candidate,
           first_candidate response = Some candidate ->
           _extract_result rt st response model false gemini_format w
           = (text <- _add_search_link_text rt st model candidate (VStr "") ;;
              Ok (text, [], VNone), w)
           /\ (search_link_gate st model candidate = Ok false ->
               _extract_result rt st response model false gemini_format w
               = (Ok (VStr "", [], VNone), w)))
  /\ (candidates_absent response || parts_absent response = true ->
      usage_ok usage_metadata = true ->
      exists chunk w',
        _handle_openai_stream_response rt st response model finish_reason
          usage_metadata w = (Ok chunk, w')
        /\ chunk_delta chunk = Ok (VDict [])).
Proof.
  assert (Hstream : parts_absent response = true ->
            forall gf, _extract_result rt st response model true gf w
            = (Ok (VStr "", [], VNone), w)).
  { intros Hp gf. unfold parts_absent in Hp.
    destruct (first_candidate response) as [candidate|] eqn:Hfc;
      [|discriminate].
    assert (Hp' : parts_absent response = true)
      by (unfold parts_absent; rewrite Hfc; exact Hp).
    exact (extract_result_no_parts _ _ model true gf w Hp' Hfc). }
  split; [|split].
  - intros Hc. split.
    + exact (extract_result_no_candidates _ model false gemini_format w Hc).
    + exact (extract_result_no_candidates _ model true gemini_format w Hc).
  - intros Hp. split; [exact (Hstream Hp gemini_format)|].
    intros candidate Hfc.
    pose proof (extract_result_no_parts _ _ model false gemini_format w Hp Hfc)
      as Hn.
    split; [exact Hn|].
    intros Hg. rewrite Hn, (add_search_link_text_closed _ _ _ Hg). reflexivity.
  - intros Ha Hu.
    assert (Hx : _extract_result rt st response model true false w
                 = (Ok (VStr "", [], VNone), w)).
    { apply orb_true_iff in Ha. destruct Ha as [Hc|Hp].
      - exact (extract_result_no_candidates _ model true false w Hc).
      - exact (Hstream Hp false). }
    destruct (stream_response_chunk _ model finish_reason _ _ _ _ _ _ Hx Hu)
      as (chunk & w2 & Hb & Hd).
    exists chunk, w2. split; [exact Hb | exact Hd].
Qed.

(** ** Usage *)

(** C3.  With no usage metadata (None, the default of [handle_response]) the
    full-message builder attaches no usage block: once the extraction has
    returned, it reaches the usage block, calls [get] on None and raises
    AttributeError. *)
Theorem normal_response_usage_none (response : value) (model : string)
    (finish_reason : value) (w w1 : W) (x : extraction) :
  _extract_result rt st response model false false w = (Ok x, w1) ->
  fst (_handle_openai_normal_response rt st response model finish_reason VNone w)
  = Raise AttributeError.
Proof.
  intros Hx. unfold _handle_openai_normal_response.
  rewrite (bind_ok _ _ _ _ _ Hx). destruct x as [[text tool_calls] thought].
  cbv beta iota.
  unfold bind at 1, perform at 1. destruct (uuid4_hex rt w1) as [hex w2].
  unfold bind at 1, perform at 1. destruct (time_time rt w2) as [created w3].
  reflexivity.
Qed.

(** With usage metadata that is a dict the usage block is attached, each
    counter missing from the metadata being zero. *)
Lemma normal_response_usage_dict (response : value) (model : string)
    (finish_reason : value) (u : list (string * value)) (w w1 : W)
    (x : extraction) :
  _extract_result rt st response model false false w = (Ok x, w1) ->
  exists data w2,
    _handle_openai_normal_response rt st response model finish_reason (VDict u) w
    = (Ok data, w2)
    /\ py_getitem data "usage"
       = Ok (VDict [("prompt_tokens", get_or "promptTokenCount" (VInt 0) u);
                    ("completion_tokens", get_or "candidatesTokenCount" (VInt 0) u);
                    ("total_tokens", get_or "totalTokenCount" (VInt 0) u)]).
Proof.
  intros Hx. unfold _handle_openai_normal_response.
  rewrite (bind_ok _ _ _ _ _ Hx). destruct x as [[text tool_calls] thought].
  cbv beta iota.
  unfold bind at 1, perform at 1. destruct (uuid4_hex rt w1) as [hex w2].
  unfold bind at 1, perform at 1. destruct (time_time rt w2) as [created w3].
  rewrite usage_block_dict, bind_lift_ok.
  destruct (truthy thought); eexists _, w3; split; reflexivity.
Qed.

(** ** Inline media *)

Lemma has_key_lookup (k : string) d v : lookup k d = Some v -> has_key k d = true.
Proof. unfold has_key; intros ->; reflexivity. Qed.

(** The non-streaming chain reaches the inline data of a fragment that has
    no text. *)
Lemma normal_text_inline (text : string) dp inline (w : W) :
  has_key "text" dp = false ->
  lookup "inlineData" dp = Some inline ->
  normal_text rt st text (VDict dp) w
  = bind (_extract_image_data rt st (VDict dp)) (fun s => ret (text ++ s)) w.
Proof.
  intros Ht Hi. unfold normal_text.
  cbn [py_in]. rewrite Ht, bind_lift_ok.
  rewrite (has_key_lookup _ _ _ Hi), bind_lift_ok. reflexivity.
Qed.

(** What [_extract_image_data] does once the date and the identifier of the
    file name are drawn. *)
Lemma extract_image_data_steps dp inline data date hex (w w0 w1 : W) :
  lookup "inlineData" dp = Some inline ->
  py_getitem inline "data" = Ok data ->
  time_strftime rt w = (date, w0) ->
  uuid4_hex rt w0 = (hex, w1) ->
  _extract_image_data rt st (VDict dp) w
  = match b64decode rt data with
    | Raise e => (Raise e, w1)
    | Ok bytes_data =>
        match image_uploader rt st with
        | None => (Raise AttributeError, w1)
        | Some uploader =>
            match uploader bytes_data
                    (date ++ "/" ++ String.substring 0 8 hex ++ ".png") w1 with
            | (Ok upload_response, w2) =>
                (Ok (if success upload_response
                     then nl ++ nl ++ "![image](" ++ data_url upload_response
                          ++ ")" ++ nl ++ nl
                     else ""), w2)
            | (Raise e, w2) => (Raise e, w2)
            end
        end
    end.
Proof.
  intros Hi Hd Ht Hu. unfold _extract_image_data.
  unfold bind at 1, perform at 1. rewrite Ht.
  unfold bind at 1, perform at 1. rewrite Hu.
  cbn [py_getitem]. rewrite Hi, bind_lift_ok, Hd, bind_lift_ok.
  destruct (b64decode rt data) as [bytes_data|e]; [|reflexivity].
  rewrite bind_lift_ok.
  destruct (image_uploader rt st) as [uploader|]; [|reflexivity].
  unfold bind.
  destruct (uploader bytes_data _ w1) as [[upload_response|e] w2];
    [|reflexivity].
  destruct (success upload_response); reflexivity.
Qed.

Lemma string_app_empty (s : string) : s ++ "" = s.
Proof. induction s as [|c s IH]; cbn; [reflexivity | rewrite IH; reflexivity]. Qed.

(** C2 (amended).  Take a fragment with inline data and no text, a payload
    the decoder accepts, a configured uploader, and an upload the backend
    answers with success false.  The fragment renders as the empty str; the
    non-streaming loop goes on with the fragments after it, its text
    unchanged; and when those render, the extraction of a response that
    starts with the fragment returns their text.  A payload the decoder
    refuses is not caught: its exception ends the loop. *)
Theorem upload_failure_localized
    (dp : list (string * value)) (inline data : value)
    (date hex : string) (w w0 w1 : W) (text : string) (rest : list value) :
  has_key "text" dp = false ->
  lookup "inlineData" dp = Some inline ->
  py_getitem inline "data" = Ok data ->
  time_strftime rt w = (date, w0) ->
  uuid4_hex rt w0 = (hex, w1) ->
  (forall bytes_data uploader upload_response w2,
      b64decode rt data = Ok bytes_data ->
      image_uploader rt st = Some uploader ->
      uploader bytes_data (date ++ "/" ++ String.substring 0 8 hex ++ ".png") w1
      = (Ok upload_response, w2) ->
      success upload_response = false ->
      _extract_image_data rt st (VDict dp) w = (Ok "", w2)
      /\ normal_loop rt st text (VDict dp :: rest) w
         = normal_loop rt st text rest w2
      /\ forall response candidate model s w3 t,
           fragments_of response = Some (candidate, VDict dp :: rest) ->
           thought_classified model (VDict dp :: rest) = false ->
           normal_loop rt st "" rest w2 = (Ok s, w3) ->
           _add_search_link_text rt st model candidate (VStr s) = Ok t ->
           exists tool_calls w4,
             _extract_result rt st response model false false w
             = (Ok (t, tool_calls, VNone), w4))
  /\ (forall e,
      b64decode rt data = Raise e ->
      _extract_image_data rt st (VDict dp) w = (Raise e, w1)
      /\ normal_loop rt st text (VDict dp :: rest) w = (Raise e, w1)).
Proof.
  intros Ht Hi Hd Hs Hu.
  pose proof (extract_image_data_steps dp inline data date hex w w0 w1
                Hi Hd Hs Hu) as Himg.
  split.
  - intros bytes_data uploader upload_response w2 Hb Hup Hr Hfail.
    rewrite Hb, Hup, Hr, Hfail in Himg.
    assert (Hloop : forall acc, normal_loop rt st acc (VDict dp :: rest) w
                    = normal_loop rt st acc rest w2).
    { intros acc. cbn [normal_loop].
      unfold bind at 1. rewrite (normal_text_inline acc dp inline w Ht Hi).
      unfold bind at 1. rewrite Himg. unfold ret at 1.
      rewrite string_app_empty. reflexivity. }
    split; [exact Himg|]. split; [exact (Hloop text)|].
    intros response candidate model s w3 t Hf Hnt Hrest Hcite.
    rewrite (extract_result_fragments _ _ _ _ model false false w Hf).
    unfold start_of. rewrite Hnt. cbn [andb skipn].
    unfold extraction_from.
    unfold bind at 1. rewrite (Hloop ""), Hrest.
    rewrite Hcite, bind_lift_ok.
    destruct (tool_calls_loop_target (VDict dp :: rest) 0 w3)
      as (tool_calls & w4 & Hl & _).
    exists tool_calls, w4.
    unfold bind. rewrite Hl. reflexivity.
  - intros e He. rewrite He in Himg.
    split; [exact Himg|].
    cbn [normal_loop]. unfold bind at 1.
    rewrite (normal_text_inline text dp inline w Ht Hi).
    unfold bind at 1. rewrite Himg. reflexivity.
Qed.

(** ** The round trip through the native-format builder *)

Lemma search_link_gate_set_content (model : string) c (content : value) :
  search_link_gate st model (VDict (dict_set "content" content c))
  = search_link_gate st model (VDict c).
Proof.
  unfold search_link_gate, py_in, py_getitem, has_key.
  rewrite (lookup_dict_set_other "groundingMetadata" "content" content c eq_refl).
  reflexivity.
Qed.

(** Outside streaming, a text that went through a closed citation gate is a
    str. *)
Lemma extract_result_normal_text_str (response : value) (model : string)
    (gemini_format : bool) (w w1 : W) c others d
    (text : value) (tool_calls : list value) (thought : value) :
  response = VDict d ->
  lookup "candidates" d = Some (VList (VDict c :: others)) ->
  search_link_gate st model (VDict c) = Ok false ->
  _extract_result rt st response model false gemini_format w
  = (Ok (text, tool_calls, thought), w1) ->
  exists s, text = VStr s.
Proof.
  intros -> Hc Hg. unfold _extract_result.
  unfold bind at 1. unfold lift at 1. cbn [py_get]. rewrite Hc. cbn [truthy].
  unfold bind at 1. unfold lift at 1. cbn [py_getitem bindR]. rewrite Hc.
  cbn [bindR py_index nth_error].
  intros H.
  apply bind_inv in H. destruct H as (parts & w2 & _ & H).
  apply bind_inv in H. destruct H as ([th start] & w3 & _ & H).
  cbv beta iota in H.
  apply bind_inv in H. destruct H as (items & w4 & _ & H).
  apply bind_inv in H. destruct H as (s & w5 & _ & H).
  rewrite (add_search_link_text_closed _ _ _ Hg), bind_lift_ok in H.
  apply bind_inv in H. destruct H as (sl & w6 & _ & H).
  apply bind_inv in H. destruct H as (tcs & w7 & _ & H).
  inversion H. exists s. reflexivity.
Qed.

(** When the condition of [_add_search_link_text] is false, extracting again
    from what the native full builder returned yields the text the builder
    wrote. *)
Lemma round_trip_closed_gate (response candidate : value) (model : string)
    (w w1 w2 : W) (text out : value) :
  _extract_result rt st response model false true w
  = (Ok (text, [], VNone), w1) ->
  _handle_gemini_normal_response rt st response model false w = (Ok out, w2) ->
  first_candidate response = Some candidate ->
  search_link_gate st model candidate = Ok false ->
  forall (stream gemini_format : bool) (w3 : W),
    _extract_result rt st out model stream gemini_format w3
    = (Ok (text, [], VNone), w3).
Proof.
  intros Hx Hb Hfc Hg stream gemini_format w3.
  unfold first_candidate in Hfc.
  destruct response as [| | | | | |d]; try discriminate.
  destruct (lookup "candidates" d) as [[| | | | |[|[| | | | | |c] others]|]|] eqn:Hc;
    try discriminate.
  injection Hfc as <-.
  destruct (extract_result_normal_text_str _ model true w w1 c others d
              _ _ _ eq_refl Hc Hg Hx) as (s & ->).
  unfold _handle_gemini_normal_response in Hb.
  rewrite (bind_ok _ _ _ _ _ Hx) in Hb. cbv beta iota in Hb.
  cbn [truthy] in Hb.
  unfold lift, set_candidate_content in Hb.
  cbn [py_getitem] in Hb. rewrite Hc in Hb.
  cbn [bindR py_index nth_error py_setitem] in Hb.
  injection Hb as <- _.
  set (content := VDict [("parts", VList [VDict [("text", VStr s)]]);
                         ("role", VStr "model")]).
  assert (Hf : fragments_of
                 (VDict (dict_set "candidates"
                           (VList (VDict (dict_set "content" content c) :: others)) d))
               = Some (VDict (dict_set "content" content c),
                       [VDict [("text", VStr s)]])).
  { unfold fragments_of, first_candidate.
    rewrite lookup_dict_set_same, lookup_dict_set_same. reflexivity. }
  rewrite (extract_result_fragments _ _ _ _ model stream gemini_format w3 Hf).
  assert (Hnt : thought_classified model [VDict [("text", VStr s)]] = false).
  { unfold thought_classified. cbn. apply andb_false_r. }
  unfold start_of. rewrite Hnt. cbn [andb skipn].
  assert (Hcite : _add_search_link_text rt st model
                    (VDict (dict_set "content" content c)) (VStr s)
                  = Ok (VStr s)).
  { apply add_search_link_text_closed.
    rewrite search_link_gate_set_content. exact Hg. }
  unfold extraction_from.
  destruct stream.
  - cbn [hd]. unfold stream_text. cbn [py_in has_key lookup String.eqb Ascii.eqb Bool.eqb].
    rewrite bind_lift_ok. cbn [py_get lookup String.eqb Ascii.eqb Bool.eqb].
    rewrite bind_lift_ok, Hcite, bind_lift_ok.
    destruct gemini_format; reflexivity.
  - cbn [normal_loop]. unfold normal_text.
    cbn [py_in has_key lookup String.eqb Ascii.eqb Bool.eqb].
    rewrite bind_lift_ok. cbn [py_get lookup String.eqb Ascii.eqb Bool.eqb].
    rewrite bind_lift_ok. cbn [py_str_add append].
    rewrite bind_lift_ok, bind_ret, Hcite, bind_lift_ok.
    destruct gemini_format; reflexivity.
Qed.

(** In each case of [citations_off] the condition of [_add_search_link_text]
    evaluates to false, without raising. *)
Lemma citations_off_gate (model : string) (candidate : value) :
  citations_off st model candidate = true ->
  search_link_gate st model candidate = Ok false.
Proof.
  unfold citations_off, search_link_gate.
  destruct (SHOW_SEARCH_LINK st); [|reflexivity].
  destruct (str_endswith model "-search"); [|reflexivity].
  cbn [negb orb andb].
  destruct candidate as [| | | | | |c]; try discriminate.
  unfold py_in, py_getitem, has_key.
  destruct (lookup "groundingMetadata" c) as [[| | | | | |gm]|];
    try discriminate; [|reflexivity].
  cbn [bindR]. unfold has_key.
  destruct (lookup "groundingChunks" gm); [discriminate | reflexivity].
Qed.

(** For a first candidate that is a dict, the native full builder returns
    whenever the extraction does. *)
Lemma native_builder_returns (response candidate : value) (model : string)
    (w w1 : W) (x : extraction) :
  _extract_result rt st response model false true w = (Ok x, w1) ->
  first_candidate response = Some candidate ->
  exists out,
    _handle_gemini_normal_response rt st response model false w = (Ok out, w1).
Proof.
  intros Hx Hfc. unfold first_candidate in Hfc.
  destruct response as [| | | | | |d]; try discriminate.
  destruct (lookup "candidates" d) as [[| | | | |[|[| | | | | |c] others]|]|] eqn:Hc;
    try discriminate.
  unfold _handle_gemini_normal_response.
  rewrite (bind_ok _ _ _ _ _ Hx).
  destruct x as [[text tool_calls] thought]. cbv beta iota.
  unfold lift, set_candidate_content.
  cbn [py_getitem]. rewrite Hc.
  cbn [bindR py_index nth_error py_setitem].
  eexists. reflexivity.
Qed.

(** C8 (amended).  Take a response whose first candidate is a dict, whose
    extraction outside streaming and in native format yields no tool call and
    no thought, and for which no citation section is written: SHOW_SEARCH_LINK
    is off, or the model does not end in -search, or the candidate has no key
    groundingMetadata, or its groundingMetadata is a dict with no key
    groundingChunks.  Then the native full builder returns for it, and
    extracting again from what it returns, with the same model and settings,
    in either mode and either format, yields the same text, no tool call and
    no thought, and draws nothing from the world. *)
Theorem plain_text_round_trip (response candidate : value) (model : string)
    (w w1 : W) (text : value) :
  _extract_result rt st response model false true w
  = (Ok (text, [], VNone), w1) ->
  first_candidate response = Some candidate ->
  citations_off st model candidate = true ->
  exists out,
    _handle_gemini_normal_response rt st response model false w = (Ok out, w1)
    /\ forall (stream gemini_format : bool) (w3 : W),
         _extract_result rt st out model stream gemini_format w3
         = (Ok (text, [], VNone), w3).
Proof.
  intros Hx Hfc Hoff.
  destruct (native_builder_returns _ _ _ _ _ _ Hx Hfc) as (out & Hb).
  exists out. split; [exact Hb|].
  exact (round_trip_closed_gate _ _ _ _ _ _ _ _ Hx Hb Hfc
           (citations_off_gate _ _ Hoff)).
Qed.

(** ** Independence of the world and of the handler instance *)





















(** ** The empty thought *)

(** The thought handed to [extraction_from] only travels to its result. *)
Lemma extraction_from_thought_param (settings : Settings) (model : string)
    (candidate : value) (stream gemini_format : bool) (frags : list value)
    (thought thought' : value) (w : W) :
  extraction_from rt settings model candidate stream gemini_format frags thought w
  = match extraction_from rt settings model candidate stream gemini_format
            frags thought' w with
    | (Ok (text, tool_calls, _), w') => (Ok (text, tool_calls, thought), w')
    | (Raise e, w') => (Raise e, w')
    end.
Proof.
  unfold extraction_from. destruct stream; unfold bind, lift, ret.
  - destruct (stream_text rt settings (hd (VDict []) frags) w) as [[t|e] w1];
      [|reflexivity].
    destruct (_add_search_link_text rt settings model candidate t) as [t'|e];
      [|reflexivity].
    destruct (tool_calls_loop rt gemini_format 0 frags w1) as [[tcs|e] w2];
      reflexivity.
  - destruct (normal_loop rt settings "" frags w) as [[t|e] w1];
      [|reflexivity].
    destruct (_add_search_link_text rt settings model candidate (VStr t)) as [t'|e];
      [|reflexivity].
    destruct (tool_calls_loop rt gemini_format 0 frags w1) as [[tcs|e] w2];
      reflexivity.
Qed.

(** The native builders write the parts they are given into the first
    candidate. *)
Lemma set_candidate_content_parts (response candidate : value)
    (parts : list value) (new_parts role : value) :
  fragments_of response = Some (candidate, parts) ->
  exists out,
    set_candidate_content response (VDict [("parts", new_parts); ("role", role)])
    = Ok out
    /\ content_parts out = Ok new_parts.
Proof.
  intros Hf.
  destruct (fragments_of_shape _ _ _ Hf) as (d & c & ct & others & -> & -> & Hc & Hct & Hp).
  unfold set_candidate_content. cbn [py_getitem]. rewrite Hc.
  cbn [bindR py_index nth_error py_setitem].
  eexists. split; [reflexivity|].
  unfold content_parts. cbn [py_getitem].
  rewrite lookup_dict_set_same. cbn [bindR py_index nth_error py_getitem].
  rewrite lookup_dict_set_same. reflexivity.
Qed.

End Properties.

(** C10 (amended).  Take fragments whose first one is a thought with no text
    field.  With SHOW_THINKING_PROCESS on, every extraction that returns has
    the empty str as its thought.  The full builder of the target format
    returns the same with the flag on as with the flag off, where the thought
    is None, and what it returns has no thought key.  The full builder of the
    native format, when extraction yields no tool call, tells the two
    apart: with the flag on its parts start with the part of text the empty
    str and thought true before the part of the text, with the flag off they
    are the part of the text alone. *)
Theorem empty_thought_observed {W : Type} (rt : Runtime W) (st : Settings)
    (response candidate : value) (p0 : list (string * value))
    (rest : list value) (model : string) :
  fragments_of response = Some (candidate, VDict p0 :: rest) ->
  lookup "text" p0 = None ->
  thought_classified model (VDict p0 :: rest) = true ->
  (forall stream gemini_format w text tool_calls thought w1,
      _extract_result rt (with_thinking st true) response model stream
        gemini_format w = (Ok (text, tool_calls, thought), w1) ->
      thought = VStr "")
  /\ (forall finish_reason usage_metadata w,
        _handle_openai_normal_response rt (with_thinking st true) response
          model finish_reason usage_metadata w
        = _handle_openai_normal_response rt (with_thinking st false) response
            model finish_reason usage_metadata w
        /\ forall data w2,
             _handle_openai_normal_response rt (with_thinking st true) response
               model finish_reason usage_metadata w = (Ok data, w2) ->
             py_in "thought" data = Ok false)
  /\ (forall w text thought w1,
        _extract_result rt (with_thinking st true) response model false true w
        = (Ok (text, [], thought), w1) ->
        exists out_set out_unset,
          _handle_gemini_normal_response rt (with_thinking st true) response
            model false w = (Ok out_set, w1)
          /\ content_parts out_set
             = Ok (VList [VDict [("text", VStr ""); ("thought", VBool true)];
                          VDict [("text", text)]])
          /\ _handle_gemini_normal_response rt (with_thinking st false) response
               model false w = (Ok out_unset, w1)
          /\ content_parts out_unset = Ok (VList [VDict [("text", text)]])).
Proof.
  intros Hf Ht Hfires.
  assert (Hon : forall stream gf w,
            _extract_result rt (with_thinking st true) response model stream gf w
            = extraction_from rt st model candidate stream gf rest (VStr "") w).
  { intros stream gf w.
    rewrite (extract_result_fragments rt (with_thinking st true) _ _ _ _
               model stream gf w Hf).
    unfold start_of, first_text, get_or. rewrite Hfires, Ht. reflexivity. }
  assert (Hoff : forall stream gf w,
            _extract_result rt (with_thinking st false) response model stream gf w
            = extraction_from rt st model candidate stream gf rest VNone w).
  { intros stream gf w.
    rewrite (extract_result_fragments rt (with_thinking st false) _ _ _ _
               model stream gf w Hf).
    unfold start_of. rewrite Hfires. reflexivity. }
  assert (Hthought : forall stream gemini_format w text tool_calls thought w1,
      _extract_result rt (with_thinking st true) response model stream
        gemini_format w = (Ok (text, tool_calls, thought), w1) ->
      thought = VStr "").
  { intros stream gf w text tool_calls thought w1 Hx. rewrite Hon in Hx.
    exact (extraction_from_thought rt st _ _ _ _ _ _ _ _ _ _ _ Hx). }
  split; [exact Hthought|]. split.
  - intros finish_reason usage_metadata w.
    unfold _handle_openai_normal_response, bind.
    rewrite Hon, Hoff.
    rewrite (extraction_from_thought_param rt st model candidate false false
               rest (VStr "") VNone w).
    destruct (extraction_from rt st model candidate false false rest VNone w)
      as [[[[text tcs] th]|e] w1] eqn:EX.
    + pose proof (extraction_from_thought rt st _ _ _ _ _ _ _ _ _ _ _ EX) as ->.
      unfold perform.
      destruct (uuid4_hex rt w1) as [hex w2].
      destruct (time_time rt w2) as [created w3].
      unfold lift. destruct (usage_block usage_metadata) as [usage|e].
      * split; [reflexivity|].
        intros data w4 Hd. cbn [truthy String.eqb negb] in Hd.
        unfold ret in Hd. injection Hd as <- _. reflexivity.
      * split; [reflexivity | discriminate].
    + split; [reflexivity | discriminate].
  - intros w text thought w1 Hx.
    pose proof (Hthought _ _ _ _ _ _ _ Hx) as ->.
    assert (Hx' : _extract_result rt (with_thinking st false) response model
                    false true w = (Ok (text, [], VNone), w1)).
    { rewrite Hoff.
      rewrite (extraction_from_thought_param rt st model candidate false true
                 rest VNone (VStr "") w).
      rewrite <- Hon, Hx. reflexivity. }
    destruct (set_candidate_content_parts response candidate (VDict p0 :: rest)
                (VList [VDict [("text", VStr ""); ("thought", VBool true)];
                        VDict [("text", text)]]) (VStr "model") Hf)
      as (out_set & Hset & Hpset).
    destruct (set_candidate_content_parts response candidate (VDict p0 :: rest)
                (VList [VDict [("text", text)]]) (VStr "model") Hf)
      as (out_unset & Hunset & Hpunset).
    exists out_set, out_unset.
    unfold _handle_gemini_normal_response.
    rewrite (bind_ok _ _ _ _ _ Hx), (bind_ok _ _ _ _ _ Hx').
    cbv beta iota. cbn [truthy]. unfold lift.
    rewrite Hset, Hunset. repeat split; assumption.
Qed.

(** ** The order of the tests on a fragment *)

(** C7.  On a fragment with no text that carries both inline data and
    executable code the two modes decide differently: the streaming chain
    tests inline data last and renders the code block, the non-streaming
    chain tests inline data second and renders the image. *)
Theorem fragment_priority_differs {W : Type} (rt : Runtime W) (st : Settings)
    (dp : list (string * value)) (inline code : value) (text : string) :
  has_key "text" dp = false ->
  lookup "inlineData" dp = Some inline ->
  lookup "executableCode" dp = Some code ->
  stream_text rt st (VDict dp)
  = (s <~ lift (_format_code_block rt code) ;; ret (VStr s))
  /\ normal_text rt st text (VDict dp)
     = (s <~ _extract_image_data rt st (VDict dp) ;; ret (text ++ s)).
Proof.
  intros Ht Hi Hc. split.
  - unfold stream_text. cbn [py_in py_getitem].
    rewrite Ht, bind_lift_ok, (has_key_lookup _ _ _ Hc), bind_lift_ok.
    rewrite Hc, bind_lift_ok. reflexivity.
  - unfold normal_text. cbn [py_in].
    rewrite Ht, bind_lift_ok, (has_key_lookup _ _ _ Hi), bind_lift_ok.
    reflexivity.
Qed.

(** * The properties on concrete inputs *)

(** C1: the theorem at a response with no candidate and at a response whose
    candidate has no fragment. *)
Lemma no_content_extraction_witness :
  candidates_absent (VDict []) = true
  /\ parts_absent (response_of []) = true
  /\ _extract_result runtime_std settings_std (VDict []) "gemini-pro" false false 0
     = (Ok (VStr "暂无返回", [], VNone), 0)
  /\ _extract_result runtime_std settings_std (response_of []) "gemini-pro" false
       false 0 = (Ok (VStr "", [], VNone), 0)
  /\ exists chunk w',
       _handle_openai_stream_response runtime_std settings_std (response_of [])
         "gemini-pro" (VStr "stop") VNone 0 = (Ok chunk, w')
       /\ chunk_delta chunk = Ok (VDict []).
Proof.
  split; [reflexivity|]. split; [reflexivity|]. split; [|split].
  - exact (proj1 (proj1 (no_content_extraction runtime_std settings_std (VDict [])
                           "gemini-pro" false (VStr "stop") VNone 0) eq_refl)).
  - destruct (no_content_extraction runtime_std settings_std (response_of [])
                "gemini-pro" false (VStr "stop") VNone 0) as (_ & H & _).
    destruct (H eq_refl) as (_ & Hn).
    exact (proj2 (Hn _ eq_refl) eq_refl).
  - exact (proj2 (proj2 (no_content_extraction runtime_std settings_std
                           (response_of []) "gemini-pro" false (VStr "stop")
                           VNone 0)) eq_refl eq_refl).
Defined.

(** C1: outside streaming a candidate with no fragment extracts to the empty
    text, not to the placeholder, and the native builder raises on a
    response with no candidate. *)
Lemma no_content_counterexample :
  _extract_result runtime_std settings_std (response_of []) "gemini-pro" false
    false 0 = (Ok (VStr "", [], VNone), 0)
  /\ VStr "" <> VStr "暂无返回"
  /\ _handle_gemini_normal_response runtime_std settings_std (VDict [])
       "gemini-pro" false 0 = (Raise KeyError, 0).
Proof.
  split; [reflexivity|]. split; [discriminate | reflexivity].
Qed.

(** C2: the theorem at a decodable image the backend refuses, followed by a
    text, and at a payload the decoder refuses. *)
Lemma upload_failure_localized_witness :
  _extract_image_data runtime_std settings_failing_upload (image_part "aGk=") 0
  = (Ok "", 3)
  /\ normal_loop runtime_std settings_failing_upload ""
       [image_part "aGk="; text_part "after"] 0
     = normal_loop runtime_std settings_failing_upload "" [text_part "after"] 3
  /\ (exists tool_calls w4,
        _extract_result runtime_std settings_failing_upload
          (response_of [image_part "aGk="; text_part "after"]) "gemini-pro" false
          false 0 = (Ok (VStr "after", tool_calls, VNone), w4))
  /\ normal_loop runtime_std settings_failing_upload ""
       [image_part "A"; text_part "after"] 0 = (Raise ValueError, 2).
Proof.
  destruct (upload_failure_localized runtime_std settings_failing_upload
              [("inlineData", VDict [("mimeType", VStr "image/png");
                                     ("data", VStr "aGk=")])]
              (VDict [("mimeType", VStr "image/png"); ("data", VStr "aGk=")])
              (VStr "aGk=") "2025/01/01" (hex_digits 32 1) 0 1 2 ""
              [text_part "after"]
              eq_refl eq_refl eq_refl eq_refl eq_refl) as [Hfail _].
  destruct (Hfail _ _ _ 3 eq_refl eq_refl eq_refl eq_refl) as (H1 & H2 & H3).
  destruct (upload_failure_localized runtime_std settings_failing_upload
              [("inlineData", VDict [("mimeType", VStr "image/png");
                                     ("data", VStr "A")])]
              (VDict [("mimeType", VStr "image/png"); ("data", VStr "A")])
              (VStr "A") "2025/01/01" (hex_digits 32 1) 0 1 2 ""
              [text_part "after"]
              eq_refl eq_refl eq_refl eq_refl eq_refl) as [_ Hdecode].
  split; [exact H1|]. split; [exact H2|]. split.
  - exact (H3 (response_of [image_part "aGk="; text_part "after"]) _ "gemini-pro"
              "after" 3 (VStr "after") eq_refl eq_refl eq_refl eq_refl).
  - exact (proj2 (Hdecode ValueError eq_refl)).
Defined.

(** C2: a payload the decoder refuses ends the extraction of the whole
    response with the decoder's exception; the text after it is lost. *)
Lemma decode_failure_counterexample :
  _extract_result runtime_std settings_std
    (response_of [image_part "A"; text_part "after"]) "gemini-pro" false false 0
  = (Raise ValueError, 2)
  /\ b64decode_std (VStr "A") = Raise ValueError.
Proof. split; reflexivity. Qed.

(** C3: the builder at the response of one text and no usage metadata, which
    is what [handle_response] passes when its caller gives none. *)
Lemma normal_response_usage_none_witness :
  _extract_result runtime_std settings_std hello_response "gemini-pro" false
    false 0 = (Ok (VStr "Hello", [], VNone), 0)
  /\ fst (_handle_openai_normal_response runtime_std settings_std hello_response
            "gemini-pro" (VStr "stop") VNone 0) = Raise AttributeError.
Proof.
  split; [reflexivity|].
  exact (normal_response_usage_none runtime_std settings_std hello_response
           "gemini-pro" (VStr "stop") 0 0 (VStr "Hello", [], VNone) eq_refl).
Defined.

(** C4: the theorem at the thinking scenario. *)
Lemma thought_classification_witness :
  fragments_of thinking_response
  = Some (VDict [("content", VDict [("parts", VList [text_part "reasoning...";
                                                     text_part "answer"]);
                                    ("role", VStr "model")])],
          [text_part "reasoning..."; text_part "answer"])
  /\ exists fires : bool,
       thinking_condition thinking_model
         (VList [text_part "reasoning..."; text_part "answer"]) = Ok fires
       /\ fires = true
       /\ forall text tool_calls thought w',
            _extract_result runtime_std settings_std thinking_response
              thinking_model false false 0
            = (Ok (text, tool_calls, thought), w') ->
            thought = VStr "reasoning...".
Proof.
  split; [reflexivity|].
  destruct (thought_classification runtime_std settings_std thinking_response _
              [("text", VStr "reasoning...")] [text_part "answer"]
              thinking_model false false 0 eq_refl)
    as (fires & Hc & Hiff & _ & Hthought).
  exists fires. split; [exact Hc|].
  assert (Hf : fires = true).
  { apply (proj2 Hiff). right. split; [reflexivity | apply le_n]. }
  split; [exact Hf|].
  intros text tool_calls thought w' Hx.
  rewrite (Hthought text tool_calls thought w' Hx), Hf. reflexivity.
Defined.

(** C5: the theorem at a text followed by a function call. *)
Lemma tool_call_index_position_witness :
  _extract_result runtime_std settings_std tool_response "gemini-pro" false false 0
  = (Ok (VStr "Hello",
         [tool_call 1 "call_abcdefghijklmnopqrstuvwxyz012345" (VStr "lookup")
            lookup_arguments],
         VNone), 1)
  /\ map tool_call_index
       [tool_call 1 "call_abcdefghijklmnopqrstuvwxyz012345" (VStr "lookup")
          lookup_arguments]
     = [Some 1%Z]
  /\ List.length
       (filter (has_index 1)
          [tool_call 1 "call_abcdefghijklmnopqrstuvwxyz012345" (VStr "lookup")
             lookup_arguments]) = 1.
Proof.
  split; [reflexivity|].
  destruct (tool_call_index_position runtime_std settings_std tool_response _
              [text_part "Hello"; lookup_call] "gemini-pro" false 0 1
              (VStr "Hello")
              [tool_call 1 "call_abcdefghijklmnopqrstuvwxyz012345" (VStr "lookup")
                 lookup_arguments]
              VNone eq_refl eq_refl) as [Hm Hone].
  split; [exact Hm|].
  exact (Hone eq_refl 1 lookup_call eq_refl eq_refl).
Defined.

(** C6: the theorem at a response with no fragment (an empty delta) and, for
    the full message, at the response of one text. *)
Lemma delta_and_message_tool_calls_witness :
  (exists chunk w2,
     _handle_openai_stream_response runtime_std settings_std (response_of [])
       "gemini-pro" (VStr "stop") (VDict []) 0 = (Ok chunk, w2)
     /\ chunk_delta chunk = Ok (VDict []))
  /\ (exists data w2,
        _handle_openai_normal_response runtime_std settings_std hello_response
          "gemini-pro" (VStr "stop") (VDict []) 0 = (Ok data, w2)
        /\ (message <- choice_message data ;; py_getitem message "tool_calls")
           = Ok (VList [])).
Proof.
  split.
  - destruct (proj1 (delta_and_message_tool_calls runtime_std settings_std
                       (response_of []) "gemini-pro" (VStr "stop") (VDict []) 0)
                (VStr "") [] VNone 0 eq_refl eq_refl)
      as (chunk & w2 & Hb & Hd & _).
    exists chunk, w2. split; [exact Hb | exact Hd].
  - exact (proj2 (delta_and_message_tool_calls runtime_std settings_std
                    hello_response "gemini-pro" (VStr "stop") (VDict []) 0)
             (VStr "Hello") [] VNone 0 eq_refl eq_refl).
Defined.

(** C7: the fragment with an image and a code block, in both modes. *)
Lemma fragment_priority_differs_witness :
  fst (_extract_result runtime_std settings_std (response_of [image_and_code_part])
         "gemini-pro" true false 0)
  = Ok (VStr (nl ++ nl ++ "---" ++ nl ++ nl ++ "【代码执行】" ++ nl
              ++ "```python" ++ nl ++ "print(1)" ++ nl ++ "```" ++ nl), [], VNone)
  /\ fst (_extract_result runtime_std settings_std
            (response_of [image_and_code_part]) "gemini-pro" false false 0)
     = Ok (VStr (nl ++ nl ++ "![image](https://img.example/2025/01/01/00000000.png)"
                 ++ nl ++ nl), [], VNone)
  /\ stream_text runtime_std settings_std image_and_code_part 0
     = (Ok (VStr (nl ++ nl ++ "---" ++ nl ++ nl ++ "【代码执行】" ++ nl
                  ++ "```python" ++ nl ++ "print(1)" ++ nl ++ "```" ++ nl)), 0)
  /\ normal_text runtime_std settings_std "" image_and_code_part 0
     = (Ok (nl ++ nl ++ "![image](https://img.example/2025/01/01/00000000.png)"
            ++ nl ++ nl), 3).
Proof.
  split; [reflexivity|]. split; [reflexivity|].
  destruct (fragment_priority_differs runtime_std settings_std
              [("inlineData", VDict [("mimeType", VStr "image/png");
                                     ("data", VStr "aGk=")]);
               ("executableCode", VDict [("language", VStr "PYTHON");
                                         ("code", VStr "print(1)")])]
              (VDict [("mimeType", VStr "image/png"); ("data", VStr "aGk=")])
              (VDict [("language", VStr "PYTHON"); ("code", VStr "print(1)")])
              "" eq_refl eq_refl eq_refl) as [Hs Hn].
  split.
  - unfold image_and_code_part. rewrite Hs. reflexivity.
  - unfold image_and_code_part. rewrite Hn. reflexivity.
Defined.

(** A response of two texts for a search model, whose candidate carries
    grounding metadata with the queries made and no key groundingChunks. *)
Definition queried_response : value :=
  VDict [("candidates",
          VList [VDict [("content",
                         VDict [("parts", VList [text_part "Hello, ";
                                                 text_part "world"]);
                                ("role", VStr "model")]);
                        ("groundingMetadata",
                         VDict [("webSearchQueries", VList [VStr "hello"])])]])].

(** C8: the theorem at [queried_response] under the search model, with
    SHOW_SEARCH_LINK on.  The two texts extract to their concatenation; the
    native full builder stores it as one fragment, so what it returns is not
    the response it was given; extraction from it, here in streaming and
    target format, gives back the text. *)
Lemma plain_text_round_trip_witness :
  _extract_result runtime_std settings_std queried_response search_model
    false true 0
  = (Ok (VStr "Hello, world", [], VNone), 0)
  /\ exists out,
       _handle_gemini_normal_response runtime_std settings_std queried_response
         search_model false 0 = (Ok out, 0)
       /\ content_parts out = Ok (VList [text_part "Hello, world"])
       /\ _extract_result runtime_std settings_std out search_model true false 5
          = (Ok (VStr "Hello, world", [], VNone), 5).
Proof.
  split; [reflexivity|].
  destruct (plain_text_round_trip runtime_std settings_std queried_response _
              search_model 0 0 (VStr "Hello, world") eq_refl eq_refl eq_refl)
    as (out & Hb & Hre).
  exists out. split; [exact Hb|]. split; [|exact (Hre true false 5)].
  vm_compute in Hb. injection Hb as <-. reflexivity.
Defined.

(** C8: with the citation gate open the round trip appends the citations a
    second time.  The response extracts to the text with its citations, with
    no tool call and no thought; the native full builder stores that text;
    extraction from what it returns yields the text with the citations
    twice. *)
Lemma round_trip_counterexample :
  _extract_result runtime_std settings_std (grounded_response "Hello")
    search_model false true 0
  = (Ok (VStr ("Hello" ++ citations), [], VNone), 0)
  /\ _handle_gemini_normal_response runtime_std settings_std
       (grounded_response "Hello") search_model false 0
     = (Ok (grounded_response ("Hello" ++ citations)), 0)
  /\ _extract_result runtime_std settings_std
       (grounded_response ("Hello" ++ citations)) search_model false true 0
     = (Ok (VStr ("Hello" ++ citations ++ citations), [], VNone), 0)
  /\ VStr ("Hello" ++ citations ++ citations) <> VStr ("Hello" ++ citations).
Proof.
  split; [reflexivity|]. split; [reflexivity|]. split; [reflexivity|].
  intros H. injection H as H.
  apply (f_equal String.length) in H. vm_compute in H. discriminate.
Qed.

(** The header of the citation section, with no link under it. *)
Definition citations_header : string :=
  nl ++ nl ++ "---" ++ nl ++ nl ++ "**【引用来源】**" ++ nl ++ nl.

(** A response whose grounding metadata holds an empty list of chunks. *)
Definition empty_grounded_response (text : string) : value :=
  VDict [("candidates",
          VList [VDict [("content", VDict [("parts", VList [text_part text]);
                                           ("role", VStr "model")]);
                        ("groundingMetadata",
                         VDict [("groundingChunks", VList [])])]])].

(** The key groundingChunks alone opens the citation section: with an empty
    list of chunks the header is written with no link, and the round trip
    writes it a second time. *)
Example round_trip_empty_chunks :
  first_candidate (empty_grounded_response "Hello")
  = Some (VDict [("content", VDict [("parts", VList [text_part "Hello"]);
                                    ("role", VStr "model")]);
                 ("groundingMetadata", VDict [("groundingChunks", VList [])])])
  /\ citations_off settings_std search_model
       (VDict [("content", VDict [("parts", VList [text_part "Hello"]);
                                  ("role", VStr "model")]);
               ("groundingMetadata", VDict [("groundingChunks", VList [])])])
     = false
  /\ _extract_result runtime_std settings_std (empty_grounded_response "Hello")
       search_model false true 0
     = (Ok (VStr ("Hello" ++ citations_header), [], VNone), 0)
  /\ _handle_gemini_normal_response runtime_std settings_std
       (empty_grounded_response "Hello") search_model false 0
     = (Ok (empty_grounded_response ("Hello" ++ citations_header)), 0)
  /\ _extract_result runtime_std settings_std
       (empty_grounded_response ("Hello" ++ citations_header)) search_model
       false true 0
     = (Ok (VStr ("Hello" ++ citations_header ++ citations_header), [], VNone),
        0).
Proof. repeat split. Qed.

(** Settings with SHOW_SEARCH_LINK off. *)
Definition settings_no_search_link : Settings := {|
  SHOW_THINKING_PROCESS := true;
  SHOW_SEARCH_LINK := false;
  UPLOAD_PROVIDER := "smms";
  SMMS_SECRET_TOKEN := "token";
  PICGO_API_KEY := "";
  CLOUDFLARE_IMGBED_URL := "";
  CLOUDFLARE_IMGBED_AUTH_CODE := ""
|}.

(** The four cases in which no citation section is written, each on the
    candidate of [grounded_response] but for the last, and each with the
    text [_add_search_link_text] returns: the text it was given.  With all
    four conditions failing the section is appended. *)
Example citations_off_cases :
  (citations_off settings_no_search_link search_model
     (VDict [("groundingMetadata", grounding)]) = true
   /\ _add_search_link_text runtime_std settings_no_search_link search_model
        (VDict [("groundingMetadata", grounding)]) (VStr "Hello")
      = Ok (VStr "Hello"))
  /\ (citations_off settings_std "gemini-pro-search-preview"
        (VDict [("groundingMetadata", grounding)]) = true
      /\ _add_search_link_text runtime_std settings_std
           "gemini-pro-search-preview"
           (VDict [("groundingMetadata", grounding)]) (VStr "Hello")
         = Ok (VStr "Hello"))
  /\ (citations_off settings_std search_model (VDict []) = true
      /\ _add_search_link_text runtime_std settings_std search_model
           (VDict []) (VStr "Hello")
         = Ok (VStr "Hello"))
  /\ (citations_off settings_std search_model
        (VDict [("groundingMetadata",
                 VDict [("webSearchQueries", VList [VStr "hello"])])]) = true
      /\ _add_search_link_text runtime_std settings_std search_model
           (VDict [("groundingMetadata",
                    VDict [("webSearchQueries", VList [VStr "hello"])])])
           (VStr "Hello")
         = Ok (VStr "Hello"))
  /\ (citations_off settings_std search_model
        (VDict [("groundingMetadata", grounding)]) = false
      /\ _add_search_link_text runtime_std settings_std search_model
           (VDict [("groundingMetadata", grounding)]) (VStr "Hello")
         = Ok (VStr ("Hello" ++ citations))).
Proof. repeat split. Qed.








(** C10: the theorem at a thought with no text before an answer. *)
Lemma empty_thought_observed_witness :
  _extract_result runtime_std (with_thinking settings_std true)
    bare_thought_response "gemini-pro" false true 0
  = (Ok (VStr "answer", [], VStr ""), 0)
  /\ (exists out_set out_unset,
        _handle_gemini_normal_response runtime_std (with_thinking settings_std true)
          bare_thought_response "gemini-pro" false 0 = (Ok out_set, 0)
        /\ content_parts out_set
           = Ok (VList [VDict [("text", VStr ""); ("thought", VBool true)];
                        VDict [("text", VStr "answer")]])
        /\ _handle_gemini_normal_response runtime_std
             (with_thinking settings_std false) bare_thought_response
             "gemini-pro" false 0 = (Ok out_unset, 0)
        /\ content_parts out_unset = Ok (VList [VDict [("text", VStr "answer")]]))
  /\ _handle_openai_normal_response runtime_std (with_thinking settings_std true)
       bare_thought_response "gemini-pro" (VStr "stop") (VDict []) 0
     = _handle_openai_normal_response runtime_std (with_thinking settings_std false)
         bare_thought_response "gemini-pro" (VStr "stop") (VDict []) 0.
Proof.
  destruct (empty_thought_observed runtime_std settings_std bare_thought_response _
              [("thought", VBool true)] [text_part "answer"] "gemini-pro"
              eq_refl eq_refl eq_refl) as (_ & Htarget & Hnative).
  split; [reflexivity|]. split.
  - exact (Hnative 0 (VStr "answer") (VStr "") 0 eq_refl).
  - exact (proj1 (Htarget (VStr "stop") (VDict []) 0)).
Defined.

(** C10: when a function call follows the thought, the native full builder
    returns the function call alone: the empty thought that extraction set
    is not among the parts. *)
Lemma empty_thought_counterexample :
  _extract_result runtime_std settings_std bare_thought_call_response
    "gemini-pro" false true 0 = (Ok (VStr "", [lookup_call], VStr ""), 0)
  /\ (out <- fst (_handle_gemini_normal_response runtime_std settings_std
                    bare_thought_call_response "gemini-pro" false 0) ;;
      content_parts out) = Ok (VList [lookup_call])
  /\ hd_error [lookup_call]
     <> Some (VDict [("text", VStr ""); ("thought", VBool true)]).
Proof.
  split; [reflexivity|]. split; [reflexivity | discriminate].
Qed.

(** ** The scenarios of the specification *)

(** Scenario A: one text, in full, in target format. *)
Example scenario_full_message :
  (data <- fst (_handle_openai_normal_response runtime_std settings_std
                  hello_response "gemini-pro" (VStr "stop") (VDict []) 0) ;;
   choices <- py_getitem data "choices" ;;
   py_index choices 0)
  = Ok (VDict [("index", VInt 0);
               ("message", VDict [("role", VStr "assistant");
                                  ("content", VStr "Hello");
                                  ("tool_calls", VList [])]);
               ("finish_reason", VStr "stop")]).
Proof. reflexivity. Qed.

(** Scenario B: one function call, in target format. *)
Example scenario_function_call :
  fst (_extract_result runtime_std settings_std (response_of [lookup_call])
         "gemini-pro" false false 0)
  = Ok (VStr "",
        [tool_call 0 "call_abcdefghijklmnopqrstuvwxyz012345" (VStr "lookup")
           lookup_arguments],
        VNone).
Proof. reflexivity. Qed.

(** Scenario C: a thinking model and two texts. *)
Example scenario_thinking :
  fst (_extract_result runtime_std settings_std thinking_response thinking_model
         false false 0)
  = Ok (VStr "answer", [], VStr "reasoning...").
Proof. reflexivity. Qed.

(** Scenario D: an image with a valid payload and a backend that refuses
    it. *)
Example scenario_refused_upload :
  fst (_extract_result runtime_std settings_failing_upload
         (response_of [image_part "aGk="]) "gemini-pro" false false 0)
  = Ok (VStr "", [], VNone).
Proof. reflexivity. Qed.

(** Scenario E: a search model and one web citation. *)
Example scenario_citation :
  fst (_extract_result runtime_std settings_std (grounded_response "Hello")
         search_model false false 0)
  = Ok (VStr ("Hello" ++ citations), [], VNone).
Proof. reflexivity. Qed.

(** * Further properties of the handler *)

(** The fragments a value holds when it is a list, none otherwise. *)
Definition list_of (v : value) : list value :=
  match v with
  | VList l => l
  | _ => []
  end.

(** [tool_call'] is the target-format tool call of the function-call fragment
    [part], written out key by key: a dict with an index, an id that starts
    with call_, the type function, and under function the name of the call
    (the empty str when it has none) and, as arguments, the JSON text of the
    args of the call (of the empty dict when they are missing or false). *)
Definition renders_call {W : Type} (rt : Runtime W) (part tool_call' : value)
  : Prop :=
  exists d item i sample,
    part = VDict d
    /\ lookup "functionCall" d = Some (VDict item)
    /\ tool_call' =
       VDict
         [("index", VInt (Z.of_nat i));
          ("id", VStr ("call_" ++ sample));
          ("type", VStr "function");
          ("function",
           VDict
             [("name",
               match lookup "name" item with
               | Some name => name
               | None => VStr ""
               end);
              ("arguments",
               VStr (json_dumps rt
                       match lookup "args" item with
                       | Some args => if truthy args then args else VDict []
                       | None => VDict []
                       end))])].

Section ToolCalls.

Context {W : Type}.
Variable rt : Runtime W.

Lemma tool_calls_loop_native (parts : list value) :
  forall (i : nat) (w : W),
    tool_calls_loop rt true i parts w = (Ok (filter is_function_call parts), w).
Proof.
  induction parts as [|part rest IH]; intros i w; [reflexivity|].
  cbn [tool_calls_loop filter].
  destruct part as [| | | | | |d];
    try (cbn [isinstance_dict negb orb is_function_call];
         rewrite ?orb_true_r; exact (IH (S i) w)).
  destruct d as [|kv d]; [exact (IH (S i) w)|].
  cbn [truthy negb orb isinstance_dict is_function_call py_get].
  unfold bind at 1, lift at 1.
  destruct (lookup "functionCall" (kv :: d)) as [item|]; [|exact (IH (S i) w)].
  destruct item as [| | | | | |f];
    try (cbn [isinstance_dict negb orb];
         rewrite ?orb_true_r; exact (IH (S i) w)).
  destruct f as [|kf f]; [exact (IH (S i) w)|].
  cbn [truthy negb orb isinstance_dict].
  unfold bind. rewrite (IH (S i) w). reflexivity.
Qed.

(** X1.  In native format [_extract_tool_calls] never raises and draws
    nothing, whatever it is given: it returns the function-call fragments of
    a list, unchanged and in order, and nothing for a value that is not a
    list. *)
Theorem extract_tool_calls_native (parts : value) (w : W) :
  _extract_tool_calls rt parts true w
  = (Ok (filter is_function_call (list_of parts)), w).
Proof.
  unfold _extract_tool_calls.
  destruct parts as [| | | | |l|];
    try (cbn [isinstance_list negb list_of filter]; rewrite orb_true_r;
         reflexivity).
  destruct l as [|x l]; [reflexivity|].
  cbn [truthy negb isinstance_list orb list_of].
  apply tool_calls_loop_native.
Qed.

Lemma tool_calls_loop_renders (parts : list value) :
  forall (i : nat) (w : W),
  exists tool_calls w',
    tool_calls_loop rt false i parts w = (Ok tool_calls, w')
    /\ Forall2 (renders_call rt) (filter is_function_call parts) tool_calls.
Proof.
  induction parts as [|part rest IH]; intros i w.
  - exists [], w. split; [reflexivity | constructor].
  - cbn [tool_calls_loop filter].
    destruct part as [| | | | | |d];
      try (cbn [isinstance_dict negb orb is_function_call];
           rewrite ?orb_true_r; exact (IH (S i) w)).
    destruct d as [|kv d]; [exact (IH (S i) w)|].
    cbn [truthy negb orb isinstance_dict is_function_call py_get].
    unfold bind at 1, lift at 1.
    destruct (lookup "functionCall" (kv :: d)) as [item|] eqn:Hfc;
      [|exact (IH (S i) w)].
    destruct item as [| | | | | |f];
      try (cbn [isinstance_dict negb orb];
           rewrite ?orb_true_r; exact (IH (S i) w)).
    destruct f as [|kf f]; [exact (IH (S i) w)|].
    cbn [truthy negb orb isinstance_dict py_get].
    unfold bind at 1, perform at 1.
    destruct (random_sample rt w) as [sample w1].
    unfold bind at 1, lift at 1. unfold bind at 1, lift at 1.
    destruct (IH (S i) w1) as (tcs & w' & Hl & Hf).
    eexists _, w'. split.
    + unfold bind at 1. rewrite Hl. reflexivity.
    + constructor; [|exact Hf].
      exists (kv :: d), (kf :: f), i, sample.
      split; [reflexivity|]. split; [exact Hfc|].
      unfold tool_call, or_empty_dict, get_or.
      destruct (lookup "name" (kf :: f)); destruct (lookup "args" (kf :: f));
        reflexivity.
Qed.

(** X2.  In target format [_extract_tool_calls] never raises, whatever it is
    given: it returns one tool call for each function-call fragment of a
    list, in order, with the name and the JSON arguments of the call, and
    nothing for a value that is not a list. *)
Theorem extract_tool_calls_target (parts : value) (w : W) :
  exists tool_calls w',
    _extract_tool_calls rt parts false w = (Ok tool_calls, w')
    /\ Forall2 (renders_call rt) (filter is_function_call (list_of parts))
         tool_calls.
Proof.
  unfold _extract_tool_calls.
  destruct parts as [| | | | |l|];
    try (exists [], w; cbn [isinstance_list negb list_of filter];
         rewrite orb_true_r; split; [reflexivity | constructor]).
  destruct l as [|x l]; [exists [], w; split; [reflexivity | constructor]|].
  cbn [truthy negb isinstance_list orb list_of].
  apply tool_calls_loop_renders.
Qed.

End ToolCalls.

(** The key [k] of the dict is missing or holds a str. *)
Definition str_or_missing (k : string) (d : list (string * value)) : bool :=
  match lookup k d with
  | None | Some (VStr _) => true
  | _ => false
  end.

(** The header [_add_search_link_text] writes before the links. *)
Definition citation_header : string :=
  nl ++ nl ++ "---" ++ nl ++ nl ++ "**【引用来源】**" ++ nl ++ nl.

(** A grounding chunk whose web entry is a dict with no title or no uri. *)
Definition broken_chunk (chunk : value) : bool :=
  match chunk with
  | VDict c =>
      match lookup "web" c with
      | Some (VDict web) => negb (has_key "title" web && has_key "uri" web)
      | _ => false
      end
  | _ => false
  end.

Section Rendering.

Context {W : Type}.
Variable rt : Runtime W.
Variable st : Settings.

Lemma string_app_assoc (a b c : string) : (a ++ b) ++ c = a ++ (b ++ c).
Proof. induction a as [|x a IH]; cbn; [reflexivity | rewrite IH; reflexivity]. Qed.

Ltac returns_case d :=
  split;
  [ split;
    [ intros (? & H);
      first [ discriminate H
            | exists d; split; [reflexivity|];
              unfold str_or_missing;
              repeat match goal with E : lookup _ d = _ |- _ => rewrite E end;
              reflexivity ]
    | intros (? & H & Hs);
      first [ discriminate H
            | injection H as <-; unfold str_or_missing in Hs;
              repeat match goal with
                     | E : lookup _ d = _ |- _ => rewrite E in Hs
                     end;
              first [discriminate Hs | eexists; reflexivity] ] ]
  | intros ? H; first [discriminate H | injection H as <-; reflexivity] ].

(** X3.  [_format_code_block] returns exactly for a dict whose language and
    code are each a str or missing; for anything else, a null language or
    code included, it raises, and the exception is always AttributeError. *)
Theorem format_code_block_returns (code_data : value) :
  ((exists s, _format_code_block rt code_data = Ok s)
   <-> exists d, code_data = VDict d
                 /\ str_or_missing "language" d && str_or_missing "code" d
                    = true)
  /\ forall e, _format_code_block rt code_data = Raise e -> e = AttributeError.
Proof.
  unfold _format_code_block.
  destruct code_data as [| | | | | |d]; cbn [py_get bindR];
    try solve [returns_case (@nil (string * value))].
  destruct (lookup "language" d) as [[| | | |l| |]|] eqn:Hl;
    cbn [py_lower bindR];
    try solve [returns_case d];
    (destruct (lookup "code" d) as [[| | | |c| |]|] eqn:Hc;
     cbn [py_strip bindR]; solve [returns_case d]).
Qed.

(** X4.  [_format_execution_result] returns exactly for a dict whose output
    is a str or missing, whatever its outcome is; for anything else it
    raises, and the exception is always AttributeError. *)
Theorem format_execution_result_returns (result_data : value) :
  ((exists s, _format_execution_result rt result_data = Ok s)
   <-> exists d, result_data = VDict d /\ str_or_missing "output" d = true)
  /\ forall e,
       _format_execution_result rt result_data = Raise e -> e = AttributeError.
Proof.
  unfold _format_execution_result.
  destruct result_data as [| | | | | |d]; cbn [py_get bindR];
    try solve [returns_case (@nil (string * value))].
  destruct (lookup "output" d) as [[| | | |o| |]|] eqn:Ho;
    cbn [py_strip bindR]; solve [returns_case d].
Qed.

(** *** Citations *)

Lemma search_links_appends (chunks : list value) :
  forall (t : string) (v : value),
    search_links rt chunks (VStr t) = Ok v ->
    exists links, v = VStr (t ++ links).
Proof.
  induction chunks as [|chunk rest IH]; intros t v H; cbn [search_links] in H.
  - injection H as <-. exists "". rewrite string_app_empty. reflexivity.
  - destruct (py_in "web" chunk) as [[|]|e]; cbn [bindR] in H;
      try discriminate.
    + destruct (py_getitem chunk "web") as [web|e]; cbn [bindR] in H;
        [|discriminate].
      destruct (_create_search_link rt web) as [link|e]; cbn [bindR] in H;
        [|discriminate].
      cbn [py_iadd_str bindR] in H.
      destruct (IH _ _ H) as (links & ->).
      exists (link ++ links). rewrite string_app_assoc. reflexivity.
    + exact (IH _ _ H).
Qed.

(** X5.  Citation appending never alters the text it is given: when
    [_add_search_link_text] returns for a str, the result is that str
    followed by a suffix.  The suffix is empty when the citation gate is
    closed and starts with the citation header when it is open, so the
    result then differs from the text. *)
Theorem add_search_link_text_appends (model : string) (candidate : value)
    (t : string) (v : value) :
  _add_search_link_text rt st model candidate (VStr t) = Ok v ->
  exists suffix,
    v = VStr (t ++ suffix)
    /\ (search_link_gate st model candidate = Ok false -> suffix = "")
    /\ (search_link_gate st model candidate = Ok true ->
        exists links, suffix = citation_header ++ links).
Proof.
  unfold _add_search_link_text.
  destruct (search_link_gate st model candidate) as [[|]|e]; cbn [bindR];
    intros H; try discriminate.
  - destruct (py_getitem candidate "groundingMetadata") as [gm|e];
      cbn [bindR] in H; [|discriminate].
    destruct (py_getitem gm "groundingChunks") as [gc|e];
      cbn [bindR] in H; [|discriminate].
    cbn [py_iadd_str bindR] in H.
    destruct (py_iter gc) as [chunks|e]; cbn [bindR] in H; [|discriminate].
    destruct (search_links_appends _ _ _ H) as (links & ->).
    exists (citation_header ++ links). split; [|split].
    + unfold citation_header. rewrite !string_app_assoc. reflexivity.
    + discriminate.
    + intros _. exists links. reflexivity.
  - injection H as <-. exists "". split; [|split].
    + rewrite string_app_empty. reflexivity.
    + reflexivity.
    + discriminate.
Qed.

Lemma search_links_broken (chunks : list value) :
  forall (chunk text : value),
    In chunk chunks ->
    broken_chunk chunk = true ->
    exists e, search_links rt chunks text = Raise e.
Proof.
  induction chunks as [|x rest IH]; intros chunk text Hin Hb; [contradiction|].
  cbn [search_links].
  destruct Hin as [->|Hin].
  - unfold broken_chunk in Hb.
    destruct chunk as [| | | | | |c]; try discriminate.
    destruct (lookup "web" c) as [[| | | | | |web]|] eqn:Hw; try discriminate.
    cbn [py_in py_getitem]. unfold has_key at 1. rewrite Hw. cbn [bindR].
    unfold _create_search_link. cbn [py_getitem].
    unfold has_key in Hb.
    destruct (lookup "title" web); [|exists KeyError; reflexivity].
    destruct (lookup "uri" web); [discriminate | exists KeyError; reflexivity].
  - destruct (py_in "web" x) as [[|]|e]; cbn [bindR];
      [| exact (IH _ _ Hin Hb) | exists e; reflexivity].
    destruct (py_getitem x "web") as [web|e]; cbn [bindR];
      [|exists e; reflexivity].
    destruct (_create_search_link rt web) as [link|e]; cbn [bindR];
      [|exists e; reflexivity].
    destruct (py_iadd_str text link) as [text'|e]; cbn [bindR];
      [|exists e; reflexivity].
    exact (IH _ _ Hin Hb).
Qed.

(** X6.  With the citation gate open, one grounding chunk whose web entry
    lacks its title or its uri is enough for [_add_search_link_text] to
    raise, whatever the text and the other chunks are: no citation is
    skipped for being incomplete. *)
Theorem add_search_link_text_broken_chunk (model : string)
    (candidate gm text chunk : value) (chunks : list value) :
  search_link_gate st model candidate = Ok true ->
  py_getitem candidate "groundingMetadata" = Ok gm ->
  py_getitem gm "groundingChunks" = Ok (VList chunks) ->
  In chunk chunks ->
  broken_chunk chunk = true ->
  exists e, _add_search_link_text rt st model candidate text = Raise e.
Proof.
  intros Hg Hgm Hgc Hin Hb. unfold _add_search_link_text.
  rewrite Hg. cbn [bindR]. rewrite Hgm. cbn [bindR]. rewrite Hgc. cbn [bindR].
  destruct (py_iadd_str text _) as [text1|e]; cbn [bindR];
    [|exists e; reflexivity].
  destruct (py_iadd_str text1 _) as [text2|e]; cbn [bindR];
    [|exists e; reflexivity].
  cbn [py_iter bindR].
  exact (search_links_broken chunks chunk text2 Hin Hb).
Qed.

End Rendering.

(** The result of a computation with [acc] put before the text it
    returns. *)
Definition prepend {W : Type} (acc : string) (r : result string * W)
  : result string * W :=
  match r with
  | (Ok s, w) => (Ok (acc ++ s), w)
  | (Raise e, w) => (Raise e, w)
  end.

(** The fragment is a dict whose text is the str [s]. *)
Definition has_text (part : value) (s : string) : Prop :=
  exists d, part = VDict d /\ lookup "text" d = Some (VStr s).

(** The dict has none of the six keys the text of a fragment is read from. *)
Definition no_text_key (d : list (string * value)) : bool :=
  negb (has_key "text" d) && negb (has_key "inlineData" d)
  && negb (has_key "executableCode" d) && negb (has_key "codeExecution" d)
  && negb (has_key "executableCodeResult" d)
  && negb (has_key "codeExecutionResult" d).

Section TextLoop.

Context {W : Type}.
Variable rt : Runtime W.
Variable st : Settings.

Lemma normal_text_prepend (acc : string) (part : value) (w : W) :
  normal_text rt st acc part w = prepend acc (normal_text rt st "" part w).
Proof.
  unfold normal_text, bind, lift, ret, prepend.
  destruct (py_in "text" part) as [[|]|?]; try reflexivity.
  { destruct (py_get part "text" (VStr "")) as [[| | | |t| |]|?];
      reflexivity. }
  destruct (py_in "inlineData" part) as [[|]|?]; try reflexivity.
  { destruct (_extract_image_data rt st part w) as [[s|e] w1]; reflexivity. }
  destruct (py_in "executableCode" part) as [[|]|?]; try reflexivity.
  { destruct (py_getitem part "executableCode") as [c|?]; [|reflexivity].
    destruct (_format_code_block rt c); reflexivity. }
  destruct (py_in "codeExecution" part) as [[|]|?]; try reflexivity.
  { destruct (py_getitem part "codeExecution") as [c|?]; [|reflexivity].
    destruct (_format_code_block rt c); reflexivity. }
  destruct (py_in "executableCodeResult" part) as [[|]|?]; try reflexivity.
  { destruct (py_getitem part "executableCodeResult") as [c|?]; [|reflexivity].
    destruct (_format_execution_result rt c); reflexivity. }
  destruct (py_in "codeExecutionResult" part) as [[|]|?]; try reflexivity.
  { destruct (py_getitem part "codeExecutionResult") as [c|?]; [|reflexivity].
    destruct (_format_execution_result rt c); reflexivity. }
  rewrite string_app_empty. reflexivity.
Qed.

(** X7.  The non-streaming loop renders each fragment independently of the
    text gathered so far: run from the text [acc], it returns [acc] followed
    by what it returns from the empty text, with the same effects and the
    same exception. *)
Theorem normal_loop_prepend (parts : list value) :
  forall (acc : string) (w : W),
    normal_loop rt st acc parts w = prepend acc (normal_loop rt st "" parts w).
Proof.
  induction parts as [|part rest IH]; intros acc w; cbn [normal_loop].
  - unfold ret, prepend. rewrite string_app_empty. reflexivity.
  - unfold bind. rewrite (normal_text_prepend acc part w).
    destruct (normal_text rt st "" part w) as [[s|e] w1]; cbn [prepend];
      [|reflexivity].
    rewrite (IH (acc ++ s) w1), (IH s w1).
    destruct (normal_loop rt st "" rest w1) as [[r|e] w2]; cbn [prepend];
      [|reflexivity].
    cbn [append]. rewrite string_app_assoc. reflexivity.
Qed.

Lemma normal_loop_app (l1 l2 : list value) :
  forall (acc : string) (w : W),
    normal_loop rt st acc (l1 ++ l2)%list w
    = bind (normal_loop rt st acc l1) (fun t => normal_loop rt st t l2) w.
Proof.
  induction l1 as [|part rest IH]; intros acc w; [reflexivity|].
  cbn [normal_loop List.app]. unfold bind.
  destruct (normal_text rt st acc part w) as [[t|e] w1]; [|reflexivity].
  rewrite (IH t w1). reflexivity.
Qed.

Lemma normal_loop_texts (parts : list value) (texts : list string) :
  Forall2 has_text parts texts ->
  forall (acc : string) (w : W),
    normal_loop rt st acc parts w = (Ok (acc ++ String.concat "" texts), w).
Proof.
  induction 1 as [|part s parts texts (d & -> & Hs) _ IH]; intros acc w.
  - cbn. unfold ret. rewrite string_app_empty. reflexivity.
  - cbn [normal_loop]. unfold bind at 1, normal_text.
    cbn [py_in py_get]. unfold has_key. rewrite Hs.
    unfold bind, lift. cbn [py_str_add].
    rewrite (IH (acc ++ s) w), string_app_assoc.
    destruct texts as [|s' texts]; cbn [String.concat append];
      [rewrite string_app_empty|]; reflexivity.
Qed.

Lemma tool_calls_loop_returns (gemini_format : bool) (parts : list value)
    (i : nat) (w : W) :
  exists tool_calls w',
    tool_calls_loop rt gemini_format i parts w = (Ok tool_calls, w').
Proof.
  destruct gemini_format.
  - exists (filter is_function_call parts), w. apply tool_calls_loop_native.
  - destruct (tool_calls_loop_target rt parts i w) as (tcs & w' & H & _).
    exists tcs, w'. exact H.
Qed.

(** X8.  Outside streaming, for fragments that all carry a str text, with no
    thought among them and the citation gate closed, the extracted text is
    the texts of the fragments joined in order, and the thought is None. *)
Theorem extract_result_joins_texts (response candidate : value)
    (parts : list value) (texts : list string) (model : string)
    (gemini_format : bool) (w : W) :
  fragments_of response = Some (candidate, parts) ->
  Forall2 has_text parts texts ->
  thought_classified model parts = false ->
  search_link_gate st model candidate = Ok false ->
  exists tool_calls w',
    _extract_result rt st response model false gemini_format w
    = (Ok (VStr (String.concat "" texts), tool_calls, VNone), w').
Proof.
  intros Hf Ht Hnt Hg.
  destruct Ht as [|part s parts texts (d & -> & Hs) Hrest].
  - rewrite (extract_result_no_fragments rt st _ _ model false gemini_format w Hf).
    rewrite (add_search_link_text_closed rt st _ _ _ Hg).
    exists [], w. reflexivity.
  - rewrite (extract_result_fragments rt st _ _ _ _ model false gemini_format w Hf).
    unfold start_of. rewrite Hnt. cbn [andb skipn].
    unfold extraction_from. unfold bind at 1.
    rewrite (normal_loop_texts (VDict d :: parts) (s :: texts)
               (Forall2_cons _ _ (ex_intro _ d (conj eq_refl Hs)) Hrest) "" w).
    cbn [append].
    rewrite (add_search_link_text_closed rt st _ _ _ Hg), bind_lift_ok.
    destruct (tool_calls_loop_returns gemini_format (VDict d :: parts) 0 w)
      as (tcs & w' & Hl).
    exists tcs, w'. unfold bind. rewrite Hl. reflexivity.
Qed.

Lemma normal_text_no_key (d : list (string * value)) (acc : string) (w : W) :
  no_text_key d = true ->
  normal_text rt st acc (VDict d) w = (Ok acc, w).
Proof.
  unfold no_text_key. rewrite !andb_true_iff, !negb_true_iff.
  intros (((((H1 & H2) & H3) & H4) & H5) & H6).
  unfold normal_text. cbn [py_in].
  rewrite H1, H2, H3, H4, H5, H6. reflexivity.
Qed.

(** X9.  A dict fragment with none of the six keys a text is read from (a
    function call, say, or an unknown shape) adds nothing to the text and
    has no effect: the non-streaming loop returns the same with it as
    without it, wherever it stands, and the streaming chain renders it as
    the empty str. *)
Theorem fragment_without_text_key (d : list (string * value)) :
  no_text_key d = true ->
  (forall (acc : string) (before after : list value) (w : W),
      normal_loop rt st acc (before ++ VDict d :: after)%list w
      = normal_loop rt st acc (before ++ after)%list w)
  /\ forall w : W, stream_text rt st (VDict d) w = (Ok (VStr ""), w).
Proof.
  intros Hd. split.
  - intros acc before after w.
    rewrite !normal_loop_app. unfold bind.
    destruct (normal_loop rt st acc before w) as [[t|e] w1]; [|reflexivity].
    cbn [normal_loop]. unfold bind.
    rewrite (normal_text_no_key d t w1 Hd). reflexivity.
  - intros w. revert Hd.
    unfold no_text_key. rewrite !andb_true_iff, !negb_true_iff.
    intros (((((H1 & H2) & H3) & H4) & H5) & H6).
    unfold stream_text. cbn [py_in].
    rewrite H1, H2, H3, H4, H5, H6. reflexivity.
Qed.

Lemma add_search_link_text_same_grounding (model : string)
    (c c' : list (string * value)) (text : value) :
  py_getitem (VDict c) "groundingMetadata"
  = py_getitem (VDict c') "groundingMetadata" ->
  _add_search_link_text rt st model (VDict c) text
  = _add_search_link_text rt st model (VDict c') text.
Proof.
  intros H.
  assert (Hl : lookup "groundingMetadata" c = lookup "groundingMetadata" c').
  { cbn [py_getitem] in H.
    destruct (lookup "groundingMetadata" c), (lookup "groundingMetadata" c');
      try discriminate; [injection H as ->|]; reflexivity. }
  unfold _add_search_link_text, search_link_gate, py_in, py_getitem, has_key.
  rewrite Hl. reflexivity.
Qed.

(** X10.  Streaming extraction reads the text of one fragment only: when the
    first fragment is not a thought, the text and the thought it returns,
    and whether it raises, are those of a response with the same grounding
    metadata that holds the first fragment alone, whatever the fragments
    after it are. *)
Theorem stream_reads_one_fragment (response alone candidate candidate' : value)
    (p0 : list (string * value)) (rest : list value) (model : string)
    (gemini_format : bool) (w : W) :
  fragments_of response = Some (candidate, VDict p0 :: rest) ->
  fragments_of alone = Some (candidate', [VDict p0]) ->
  py_getitem candidate "groundingMetadata"
  = py_getitem candidate' "groundingMetadata" ->
  thought_classified model (VDict p0 :: rest) = false ->
  agree (fun x y => fst (fst x) = fst (fst y) /\ snd x = snd y)
    (fst (_extract_result rt st response model true gemini_format w))
    (fst (_extract_result rt st alone model true gemini_format w)).
Proof.
  intros Hf Ha Hg Hnt.
  assert (Hnt' : thought_classified model [VDict p0] = false).
  { unfold thought_classified in *. apply orb_false_iff in Hnt.
    destruct Hnt as [-> _]. cbn. apply andb_false_r. }
  rewrite (extract_result_fragments rt st _ _ _ _ model true gemini_format w Hf).
  rewrite (extract_result_fragments rt st _ _ _ _ model true gemini_format w Ha).
  destruct (fragments_of_shape _ _ _ Hf) as (d & c & ct & o & _ & -> & _).
  destruct (fragments_of_shape _ _ _ Ha) as (d' & c' & ct' & o' & _ & -> & _).
  unfold start_of. rewrite Hnt, Hnt'. cbn [andb skipn].
  unfold extraction_from. cbn [hd]. unfold bind at 1 4.
  destruct (stream_text rt st (VDict p0) w) as [[t|e] w1]; [|reflexivity].
  rewrite (add_search_link_text_same_grounding model c c' t Hg).
  unfold bind at 1 3, lift.
  destruct (_add_search_link_text rt st model (VDict c') t) as [t'|e];
    [|reflexivity].
  destruct (tool_calls_loop_returns gemini_format (VDict p0 :: rest) 0 w1)
    as (tcs1 & w2 & H1).
  destruct (tool_calls_loop_returns gemini_format [VDict p0] 0 w1)
    as (tcs2 & w3 & H2).
  unfold bind. rewrite H1, H2. cbn. split; reflexivity.
Qed.

Lemma add_search_link_text_str (model : string) (candidate : value)
    (t : string) (v : value) :
  _add_search_link_text rt st model candidate (VStr t) = Ok v ->
  exists s, v = VStr s.
Proof.
  unfold _add_search_link_text.
  destruct (search_link_gate st model candidate) as [[|]|e]; cbn [bindR];
    intros H; try discriminate.
  - destruct (py_getitem candidate "groundingMetadata") as [gm|e];
      cbn [bindR] in H; [|discriminate].
    destruct (py_getitem gm "groundingChunks") as [gc|e];
      cbn [bindR] in H; [|discriminate].
    cbn [py_iadd_str bindR] in H.
    destruct (py_iter gc) as [chunks|e]; cbn [bindR] in H; [|discriminate].
    destruct (search_links_appends rt _ _ _ H) as (links & ->).
    eexists. reflexivity.
  - injection H as <-. exists t. reflexivity.
Qed.

(** X11.  Outside streaming the extracted text is always a str, whatever
    the response is: any extraction that returns, returns a str. *)
Theorem extract_result_normal_text_is_str (response : value) (model : string)
    (gemini_format : bool) (w w' : W) (text : value)
    (tool_calls : list value) (thought : value) :
  _extract_result rt st response model false gemini_format w
  = (Ok (text, tool_calls, thought), w') ->
  exists s, text = VStr s.
Proof.
  unfold _extract_result. intros H.
  apply bind_inv in H. destruct H as (candidates & w1 & _ & H).
  destruct (truthy candidates).
  - apply bind_inv in H. destruct H as (candidate & w2 & _ & H).
    apply bind_inv in H. destruct H as (parts & w3 & _ & H).
    apply bind_inv in H. destruct H as ([th start] & w4 & _ & H).
    cbv beta iota in H.
    apply bind_inv in H. destruct H as (items & w5 & _ & H).
    apply bind_inv in H. destruct H as (s & w6 & _ & H).
    apply bind_inv in H. destruct H as (text' & w7 & Hc & H).
    apply bind_inv in H. destruct H as (sl & w8 & _ & H).
    apply bind_inv in H. destruct H as (tcs & w9 & _ & H).
    inversion H; subst.
    unfold lift in Hc. injection Hc as Hc _.
    exact (add_search_link_text_str _ _ _ _ Hc).
  - inversion H. eexists. reflexivity.
Qed.

End TextLoop.

(** The parts the native builders write for an extraction: the tool calls
    when there are some; otherwise the text, after the thought when
    [with_thought] is set and the thought is not None. *)
Definition native_parts (with_thought : bool) (x : extraction) : list value :=
  let '(text, tool_calls, thought) := x in
  match tool_calls with
  | _ :: _ => tool_calls
  | [] =>
      match with_thought, thought with
      | true, VNone | false, _ => [VDict [("text", text)]]
      | true, _ => [VDict [("text", thought); ("thought", VBool true)];
                    VDict [("text", text)]]
      end
  end.

(** The usage block written for the usage metadata [u]. *)
Definition usage_of (u : list (string * value)) : value :=
  VDict [("prompt_tokens", get_or "promptTokenCount" (VInt 0) u);
         ("completion_tokens", get_or "candidatesTokenCount" (VInt 0) u);
         ("total_tokens", get_or "totalTokenCount" (VInt 0) u)].

(** An extraction without its thought. *)
Definition without_thought {W : Type} (r : result extraction * W)
  : result extraction * W :=
  match r with
  | (Ok (text, tool_calls, _), w) => (Ok (text, tool_calls, VNone), w)
  | (Raise e, w) => (Raise e, w)
  end.

Section Builders.

Context {W : Type}.
Variable rt : Runtime W.
Variable st : Settings.

Lemma set_candidate_content_inv (response content out : value) :
  set_candidate_content response content = Ok out ->
  exists d c others,
    response = VDict d
    /\ lookup "candidates" d = Some (VList (VDict c :: others))
    /\ out = VDict (dict_set "candidates"
                      (VList (VDict (dict_set "content" content c) :: others)) d).
Proof.
  unfold set_candidate_content.
  destruct response as [| | | | | |d]; try discriminate.
  cbn [py_getitem].
  destruct (lookup "candidates" d) as [candidates|] eqn:Hc; [|discriminate].
  cbn [bindR].
  destruct candidates as [| | | |s|l|c']; try discriminate.
  - cbn [py_index]. destruct (nth_error (utf8_chars s) 0); discriminate.
  - destruct l as [|candidate others]; [discriminate|].
    cbn [py_index nth_error bindR].
    destruct candidate as [| | | | | |c]; try discriminate.
    cbn [py_setitem bindR]. intros H. injection H as <-.
    exists d, c, others. split; [reflexivity|].
    split; [exact Hc | reflexivity].
Qed.

(** The content either native builder writes. *)
Lemma native_builder_inv (self : GeminiResponseHandler) (response : value)
    (model : string) (stream : bool) (usage_metadata : value) (w w' : W)
    (out : value) :
  GeminiResponseHandler_handle_response rt st self response model stream
    usage_metadata w = (Ok out, w') ->
  exists x parts,
    _extract_result rt st response model stream true w = (Ok x, w')
    /\ parts = native_parts (negb stream) x
    /\ set_candidate_content response
         (VDict [("parts", VList parts); ("role", VStr "model")]) = Ok out.
Proof.
  unfold GeminiResponseHandler_handle_response.
  destruct stream; intros H.
  - unfold _handle_gemini_stream_response in H.
    apply bind_inv in H. destruct H as ([[text tcs] th] & w1 & Hx & H).
    cbv beta iota in H. unfold lift in H. injection H as H <-.
    exists (text, tcs, th), (native_parts false (text, tcs, th)).
    split; [exact Hx|]. split; [reflexivity|].
    destruct tcs; exact H.
  - unfold _handle_gemini_normal_response in H.
    apply bind_inv in H. destruct H as ([[text tcs] th] & w1 & Hx & H).
    cbv beta iota in H. unfold lift in H. injection H as H <-.
    exists (text, tcs, th), (native_parts true (text, tcs, th)).
    split; [exact Hx|]. split; [reflexivity|].
    destruct tcs; [|exact H]. destruct th; exact H.
Qed.

(** X12.  When a native builder returns, it has replaced the content of the
    first candidate and nothing else: every other key of the response, every
    other candidate and every other key of the first candidate are as they
    were, and the new content has the role model. *)
Theorem native_builder_frame (self : GeminiResponseHandler) (response : value)
    (model : string) (stream : bool) (usage_metadata : value) (w w' : W)
    (out : value) :
  GeminiResponseHandler_handle_response rt st self response model stream
    usage_metadata w = (Ok out, w') ->
  (forall k, String.eqb k "candidates" = false ->
             py_getitem out k = py_getitem response k)
  /\ exists candidate candidate' others,
       py_getitem response "candidates" = Ok (VList (candidate :: others))
       /\ py_getitem out "candidates" = Ok (VList (candidate' :: others))
       /\ (forall k, String.eqb k "content" = false ->
                     py_getitem candidate' k = py_getitem candidate k)
       /\ (content <- py_getitem candidate' "content" ;;
           py_getitem content "role") = Ok (VStr "model").
Proof.
  intros H.
  destruct (native_builder_inv _ _ _ _ _ _ _ _ H) as (x & parts & _ & _ & Hs).
  destruct (set_candidate_content_inv _ _ _ Hs) as (d & c & others & -> & Hc & ->).
  split.
  - intros k Hk. cbn [py_getitem].
    rewrite (lookup_dict_set_other _ _ _ _ Hk). reflexivity.
  - exists (VDict c), (VDict (dict_set "content"
                               (VDict [("parts", VList parts);
                                       ("role", VStr "model")]) c)), others.
    cbn [py_getitem]. rewrite Hc, lookup_dict_set_same.
    split; [reflexivity|]. split; [reflexivity|]. split.
    + intros k Hk. rewrite (lookup_dict_set_other _ _ _ _ Hk). reflexivity.
    + rewrite lookup_dict_set_same. reflexivity.
Qed.

(** X13.  The parts a native builder returns are the extracted tool calls
    when there are some, and otherwise the text; the full builder puts the
    thought before the text when it is not None, the streaming builder
    never writes a thought. *)
Theorem native_builder_parts (self : GeminiResponseHandler) (response : value)
    (model : string) (stream : bool) (usage_metadata : value) (w w' : W)
    (out : value) :
  GeminiResponseHandler_handle_response rt st self response model stream
    usage_metadata w = (Ok out, w') ->
  exists x,
    _extract_result rt st response model stream true w = (Ok x, w')
    /\ content_parts out = Ok (VList (native_parts (negb stream) x)).
Proof.
  intros H.
  destruct (native_builder_inv _ _ _ _ _ _ _ _ H) as (x & parts & Hx & -> & Hs).
  exists x. split; [exact Hx|].
  destruct (set_candidate_content_inv _ _ _ Hs) as (d & c & others & -> & Hc & ->).
  unfold content_parts. cbn [py_getitem].
  rewrite lookup_dict_set_same. cbn [bindR py_index nth_error py_getitem].
  rewrite lookup_dict_set_same. reflexivity.
Qed.

(** X14.  For a response with no candidate the native builders never
    return: extraction succeeds, and the write into the first candidate
    raises. *)
Theorem native_builder_needs_candidate (self : GeminiResponseHandler)
    (response : value) (model : string) (stream : bool)
    (usage_metadata : value) (w : W) :
  candidates_absent response = true ->
  exists e,
    GeminiResponseHandler_handle_response rt st self response model stream
      usage_metadata w = (Raise e, w).
Proof.
  intros Ha.
  pose proof (extract_result_no_candidates rt st response model stream true w Ha)
    as Hx.
  assert (Hs : forall content, exists e,
             set_candidate_content response content = Raise e).
  { intros content. unfold candidates_absent, get_or in Ha.
    destruct response as [| | | | | |d]; try discriminate.
    unfold set_candidate_content. cbn [py_getitem].
    destruct (lookup "candidates" d) as [candidates|];
      [|exists KeyError; reflexivity].
    cbn [bindR].
    destruct candidates as [| | | |s|l|c]; cbn [py_index bindR];
      try (eexists; reflexivity).
    - cbn [truthy] in Ha. apply negb_true_iff, negb_false_iff in Ha.
      apply String.eqb_eq in Ha. subst s. exists IndexError. reflexivity.
    - destruct l; [exists IndexError; reflexivity | discriminate]. }
  unfold GeminiResponseHandler_handle_response.
  destruct stream.
  - unfold _handle_gemini_stream_response.
    rewrite (bind_ok _ _ _ _ _ Hx). cbv beta iota. cbn [truthy]. unfold lift.
    destruct (Hs (VDict [("parts", VList [VDict [("text", VStr "")]]);
                         ("role", VStr "model")])) as (e & ->).
    exists e. reflexivity.
  - unfold _handle_gemini_normal_response.
    rewrite (bind_ok _ _ _ _ _ Hx). cbv beta iota. cbn [truthy]. unfold lift.
    destruct (Hs (VDict [("parts", VList [VDict [("text", VStr "暂无返回")]]);
                         ("role", VStr "model")])) as (e & ->).
    exists e. reflexivity.
Qed.

(** X15.  The streaming builder of the target format attaches a usage block
    exactly when the usage metadata is a dict that is not empty, each
    counter missing from it being zero; and it never writes a thought. *)
Theorem stream_chunk_usage (response : value) (model : string)
    (finish_reason usage_metadata : value) (w w1 : W)
    (text : value) (tool_calls : list value) (thought : value) :
  _extract_result rt st response model true false w
  = (Ok (text, tool_calls, thought), w1) ->
  usage_ok usage_metadata = true ->
  exists chunk w2,
    _handle_openai_stream_response rt st response model finish_reason
      usage_metadata w = (Ok chunk, w2)
    /\ py_in "usage" chunk = Ok (truthy usage_metadata)
    /\ py_in "thought" chunk = Ok false
    /\ forall u, usage_metadata = VDict u -> truthy usage_metadata = true ->
                 py_getitem chunk "usage" = Ok (usage_of u).
Proof.
  intros Hx Hu.
  unfold _handle_openai_stream_response.
  rewrite (bind_ok _ _ _ _ _ Hx). cbv beta iota.
  unfold bind at 1, perform at 1. destruct (uuid4_hex rt w1) as [hex w2].
  unfold bind at 1, perform at 1. destruct (time_time rt w2) as [created w3].
  destruct usage_metadata as [| | | | | |u]; try discriminate.
  - eexists _, w3. split; [reflexivity|]. split; [reflexivity|].
    split; [reflexivity | discriminate].
  - destruct (truthy (VDict u)) eqn:Ht.
    + rewrite usage_block_dict, bind_lift_ok.
      eexists _, w3. split; [reflexivity|]. split; [reflexivity|].
      split; [reflexivity|]. intros u' Hu' _. injection Hu' as <-. reflexivity.
    + eexists _, w3. split; [reflexivity|]. split; [reflexivity|].
      split; [reflexivity | discriminate].
Qed.

End Builders.

Section Thinking.

Context {W : Type}.
Variable rt : Runtime W.
Variable st : Settings.

Lemma thinking_step_hidden (model : string) (parts : value) :
  thinking_step (with_thinking st false) model parts
  = match thinking_step (with_thinking st true) model parts with
    | Ok (_, start) => Ok (VNone, start)
    | Raise e => Raise e
    end.
Proof.
  unfold thinking_step, thinking_condition.
  destruct (py_index parts 0) as [p0|e]; [|reflexivity].
  cbn [bindR].
  destruct p0 as [| | | | | |d]; try reflexivity.
  cbn [py_get bindR].
  destruct (truthy _); [reflexivity|].
  destruct (str_contains "thinking" model); [|reflexivity].
  destruct (py_len parts) as [n|e]; [|reflexivity].
  cbn [bindR]. destruct (2 <=? n)%nat; reflexivity.
Qed.

(** X16.  SHOW_THINKING_PROCESS decides nothing but whether the thought is
    returned: with the flag off, extraction returns the text and the tool
    calls, draws from the world and raises exactly as with the flag on, and
    its thought is None. *)
Theorem thinking_flag_only_hides_thought (response : value) (model : string)
    (stream gemini_format : bool) (w : W) :
  _extract_result rt (with_thinking st false) response model stream
    gemini_format w
  = without_thought
      (_extract_result rt (with_thinking st true) response model stream
         gemini_format w).
Proof.
  unfold _extract_result, without_thought.
  change (stream_text rt (with_thinking st false)) with (stream_text rt st).
  change (stream_text rt (with_thinking st true)) with (stream_text rt st).
  change (normal_loop rt (with_thinking st false)) with (normal_loop rt st).
  change (normal_loop rt (with_thinking st true)) with (normal_loop rt st).
  change (_add_search_link_text rt (with_thinking st false))
    with (_add_search_link_text rt st).
  change (_add_search_link_text rt (with_thinking st true))
    with (_add_search_link_text rt st).
  unfold bind, lift, ret.
  destruct stream.
  - destruct (py_get response "candidates" VNone) as [candidates|e];
      [|reflexivity].
    destruct (truthy candidates); [|reflexivity].
    destruct (cs <- py_getitem response "candidates" ;; py_index cs 0)
      as [candidate|e]; [|reflexivity].
    destruct (py_get candidate "content" (VDict [])) as [content|e];
      [|reflexivity].
    destruct (py_get content "parts" (VList [])) as [parts|e]; [|reflexivity].
    destruct (negb (truthy parts)); [reflexivity|].
    rewrite thinking_step_hidden.
    destruct (thinking_step (with_thinking st true) model parts)
      as [[th start]|e]; [|reflexivity].
    destruct (n <- py_len parts ;;
              if (start <? n)%nat then py_index parts start else Ok (VDict []))
      as [current|e]; [|reflexivity].
    destruct (stream_text rt st current w) as [[text|e] w1]; [|reflexivity].
    destruct (_add_search_link_text rt st model candidate text) as [text'|e];
      [|reflexivity].
    destruct (py_slice_from parts start) as [rest|e]; [|reflexivity].
    destruct (_extract_tool_calls rt rest gemini_format w1) as [[tcs|e] w2];
      reflexivity.
  - destruct (py_get response "candidates" VNone) as [candidates|e];
      [|reflexivity].
    destruct (truthy candidates); [|reflexivity].
    destruct (cs <- py_getitem response "candidates" ;; py_index cs 0)
      as [candidate|e]; [|reflexivity].
    destruct (content <- py_get candidate "content" (VDict []) ;;
              py_get content "parts" (VList [])) as [parts|e]; [|reflexivity].
    destruct (truthy parts).
    + rewrite thinking_step_hidden.
      destruct (thinking_step (with_thinking st true) model parts)
        as [[th start]|e]; [|reflexivity].
      destruct (rest <- py_slice_from parts start ;; py_iter rest)
        as [items|e]; [|reflexivity].
      destruct (normal_loop rt st "" items w) as [[text|e] w1]; [|reflexivity].
      destruct (_add_search_link_text rt st model candidate (VStr text))
        as [text'|e]; [|reflexivity].
      destruct (py_slice_from parts start) as [rest|e]; [|reflexivity].
      destruct (_extract_tool_calls rt rest gemini_format w1) as [[tcs|e] w2];
        reflexivity.
    + destruct (rest <- py_slice_from parts 0 ;; py_iter rest)
        as [items|e]; [|reflexivity].
      destruct (normal_loop rt st "" items w) as [[text|e] w1]; [|reflexivity].
      destruct (_add_search_link_text rt st model candidate (VStr text))
        as [text'|e]; [|reflexivity].
      destruct (py_slice_from parts 0) as [rest|e]; [|reflexivity].
      destruct (_extract_tool_calls rt rest gemini_format w1) as [[tcs|e] w2];
        reflexivity.
Qed.

Lemma positions_length (parts : list value) :
  forall i,
    List.length (function_call_positions i parts)
    = List.length (filter is_function_call parts).
Proof.
  induction parts as [|part rest IH]; intros i; [reflexivity|].
  cbn [function_call_positions filter].
  destruct (is_function_call part); cbn [List.length]; rewrite IH; reflexivity.
Qed.

Lemma extract_result_indexes (response candidate : value)
    (parts : list value) (model : string) (stream : bool) (w w' : W)
    (text : value) (tool_calls : list value) (thought : value) :
  fragments_of response = Some (candidate, parts) ->
  _extract_result rt st response model stream false w
  = (Ok (text, tool_calls, thought), w') ->
  map tool_call_index tool_calls
  = map (fun p => Some (Z.of_nat p))
      (function_call_positions 0 (skipn (start_of model parts) parts)).
Proof.
  intros Hf Hx.
  destruct parts as [|x rest].
  - rewrite (extract_result_no_fragments rt st _ _ _ _ _ _ Hf) in Hx.
    destruct stream.
    + inversion Hx; reflexivity.
    + destruct (_add_search_link_text rt st model candidate (VStr ""));
        inversion Hx; reflexivity.
  - destruct (isinstance_dict x) eqn:Hd.
    + destruct x as [| | | | | |p0]; try discriminate.
      rewrite (extract_result_fragments rt st _ _ _ _ _ _ _ _ Hf) in Hx.
      exact (extraction_from_indexes rt st _ _ _ _ _ _ _ _ _ _ Hx).
    + rewrite (extract_result_bad_head rt st _ _ _ _ _ _ _ _ Hf Hd) in Hx.
      discriminate.
Qed.

(** X17.  When the first fragment is a thought, it yields no tool call even
    if it carries a function call, and the indexes of the others are shifted
    by one: there are as many tool calls as function calls after the first
    fragment, and a function call at position p + 1 of the sequence yields
    exactly one tool call, of index p. *)
Theorem tool_call_index_after_thought (response candidate : value)
    (parts : list value) (model : string) (stream : bool) (w w' : W)
    (text : value) (tool_calls : list value) (thought : value) :
  fragments_of response = Some (candidate, parts) ->
  _extract_result rt st response model stream false w
  = (Ok (text, tool_calls, thought), w') ->
  thought_classified model parts = true ->
  List.length tool_calls = List.length (filter is_function_call (tl parts))
  /\ forall p part,
       nth_error parts (S p) = Some part ->
       is_function_call part = true ->
       List.length (filter (has_index p) tool_calls) = 1.
Proof.
  intros Hf Hx Hth.
  pose proof (extract_result_indexes _ _ _ _ _ _ _ _ _ _ Hf Hx) as Hm.
  unfold start_of in Hm. rewrite Hth in Hm.
  destruct parts as [|x rest]; [discriminate|].
  cbn [skipn tl] in *.
  split.
  - rewrite <- (length_map tool_call_index), Hm, length_map.
    apply positions_length.
  - intros p part Hn Hfc. cbn [nth_error] in Hn.
    rewrite (count_has_index p tool_calls _ Hm).
    exact (positions_once rest 0 p part Hn Hfc).
Qed.

(** X18.  When UPLOAD_PROVIDER is none of smms, picgo and
    cloudflare_imgbed, no inline image is ever rendered:
    [_extract_image_data] raises on every fragment, and with it the
    non-streaming loop on reaching a fragment with inline data and no
    text. *)
Theorem unknown_provider_raises :
  String.eqb (UPLOAD_PROVIDER st) "smms" = false ->
  String.eqb (UPLOAD_PROVIDER st) "picgo" = false ->
  String.eqb (UPLOAD_PROVIDER st) "cloudflare_imgbed" = false ->
  (forall part w, exists e w',
      _extract_image_data rt st part w = (Raise e, w'))
  /\ (forall d acc after w,
        has_key "text" d = false ->
        has_key "inlineData" d = true ->
        exists e w',
          normal_loop rt st acc (VDict d :: after) w = (Raise e, w')).
Proof.
  intros H1 H2 H3.
  assert (Himg : forall part w, exists e w',
             _extract_image_data rt st part w = (Raise e, w')).
  { intros part w. unfold _extract_image_data, image_uploader.
    rewrite H1, H2, H3.
    unfold bind, perform, lift, raise.
    destruct (time_strftime rt w) as [date w0].
    destruct (uuid4_hex rt w0) as [hex w1].
    destruct (py_getitem part "inlineData") as [inline|e];
      [|exists e, w1; reflexivity].
    destruct (py_getitem inline "data") as [data|e];
      [|exists e, w1; reflexivity].
    destruct (b64decode rt data) as [bytes_data|e];
      [|exists e, w1; reflexivity].
    exists AttributeError, w1. reflexivity. }
  split; [exact Himg|].
  intros d acc after w Ht Hi.
  destruct (Himg (VDict d) w) as (e & w' & He).
  exists e, w'. cbn [normal_loop]. unfold bind at 1, normal_text.
  cbn [py_in]. rewrite Ht, Hi. unfold bind, lift. rewrite He. reflexivity.
Qed.

End Thinking.

(** [data[choices][0][finish_reason]]. *)
Definition choice_finish_reason (data : value) : result value :=
  choices <- py_getitem data "choices" ;;
  choice <- py_index choices 0 ;;
  py_getitem choice "finish_reason".

(** The usage block of an image response. *)
Definition zero_usage : value :=
  VDict [("prompt_tokens", VInt 0); ("completion_tokens", VInt 0);
         ("total_tokens", VInt 0)].

Section Envelopes.

Context {W : Type}.
Variable rt : Runtime W.
Variable st : Settings.

(** X19.  The full-message builder passes the extraction through: given
    usage metadata that is a dict, it returns a message of role assistant
    with the extracted text as content and the extracted tool calls, the
    finish reason and the model as they were given, and a top-level thought
    exactly when the extracted thought is true (neither None nor empty),
    equal to it. *)
Theorem normal_response_envelope (response : value) (model : string)
    (finish_reason : value) (u : list (string * value)) (w w1 : W)
    (text : value) (tool_calls : list value) (thought : value) :
  _extract_result rt st response model false false w
  = (Ok (text, tool_calls, thought), w1) ->
  exists data w2,
    _handle_openai_normal_response rt st response model finish_reason
      (VDict u) w = (Ok data, w2)
    /\ choice_message data
       = Ok (VDict [("role", VStr "assistant"); ("content", text);
                    ("tool_calls", VList tool_calls)])
    /\ choice_finish_reason data = Ok finish_reason
    /\ py_getitem data "model" = Ok (VStr model)
    /\ py_getitem data "object" = Ok (VStr "chat.completion")
    /\ py_in "thought" data = Ok (truthy thought)
    /\ (truthy thought = true -> py_getitem data "thought" = Ok thought).
Proof.
  intros Hx. unfold _handle_openai_normal_response.
  rewrite (bind_ok _ _ _ _ _ Hx). cbv beta iota.
  unfold bind at 1, perform at 1. destruct (uuid4_hex rt w1) as [hex w2].
  unfold bind at 1, perform at 1. destruct (time_time rt w2) as [created w3].
  rewrite usage_block_dict, bind_lift_ok.
  destruct (truthy thought) eqn:Ht; eexists _, w3;
    (split; [reflexivity|]); repeat (split; [reflexivity|]).
  - intros _. reflexivity.
  - discriminate.
Qed.

(** X20.  The image responses never raise.  The streaming one has the empty
    dict as delta exactly when the image str is empty (false) and the image
    as its only content otherwise; the full one carries the image as the
    content of an assistant message, empty or not, and a usage block of
    zeros.  Both pass the finish reason on. *)
Theorem image_chat_response (self : OpenAIResponseHandler) (image_str : value)
    (model : string) (stream : bool) (finish_reason : value) (w : W) :
  exists out w',
    OpenAIResponseHandler_handle_image_chat_response rt self image_str model
      stream finish_reason w = (Ok out, w')
    /\ choice_finish_reason out = Ok finish_reason
    /\ if stream
       then chunk_delta out
            = Ok (if truthy image_str then VDict [("content", image_str)]
                  else VDict [])
            /\ py_in "usage" out = Ok false
       else choice_message out
            = Ok (VDict [("role", VStr "assistant"); ("content", image_str)])
            /\ py_getitem out "usage" = Ok zero_usage.
Proof.
  unfold OpenAIResponseHandler_handle_image_chat_response.
  destruct stream.
  - unfold _handle_openai_stream_image_response.
    unfold bind at 1, perform at 1. destruct (uuid4_hex rt w) as [hex w1].
    unfold bind at 1, perform at 1. destruct (time_time rt w1) as [created w2].
    eexists _, w2. repeat split; reflexivity.
  - unfold _handle_openai_normal_image_response.
    unfold bind at 1, perform at 1. destruct (uuid4_hex rt w) as [hex w1].
    unfold bind at 1, perform at 1. destruct (time_time rt w1) as [created w2].
    eexists _, w2. repeat split; reflexivity.
Qed.

End Envelopes.

(** * The further properties on concrete inputs *)

(** A candidate with the web citation of [grounding]. *)
Definition grounded_candidate : value :=
  VDict [("groundingMetadata", grounding)].

(** A candidate whose second citation has no uri. *)
Definition broken_citation : value :=
  VDict [("web", VDict [("title", VStr "Doc")])].

Definition broken_candidate : value :=
  VDict [("groundingMetadata",
          VDict [("groundingChunks",
                  VList [VDict [("web", VDict [("title", VStr "Doc");
                                               ("uri", VStr "http://x")])];
                         broken_citation])])].

(** Settings that name a provider the handler does not know. *)
Definition settings_unknown_provider : Settings := {|
  SHOW_THINKING_PROCESS := true;
  SHOW_SEARCH_LINK := true;
  UPLOAD_PROVIDER := "imgur";
  SMMS_SECRET_TOKEN := "token";
  PICGO_API_KEY := "";
  CLOUDFLARE_IMGBED_URL := "";
  CLOUDFLARE_IMGBED_AUTH_CODE := ""
|}.

(** X5 at the candidate with one citation. *)
Lemma add_search_link_text_appends_witness :
  _add_search_link_text runtime_std settings_std search_model
    grounded_candidate (VStr "Hello") = Ok (VStr ("Hello" ++ citations))
  /\ exists suffix,
       VStr ("Hello" ++ citations) = VStr ("Hello" ++ suffix)
       /\ exists links, suffix = citation_header ++ links.
Proof.
  split; [reflexivity|].
  destruct (add_search_link_text_appends runtime_std settings_std search_model
              grounded_candidate "Hello" (VStr ("Hello" ++ citations)) eq_refl)
    as (suffix & Hv & _ & Hopen).
  exists suffix. split; [exact Hv | exact (Hopen eq_refl)].
Defined.

(** X6 at the candidate whose second citation has no uri. *)
Lemma add_search_link_text_broken_chunk_witness :
  broken_chunk broken_citation = true
  /\ exists e,
       _add_search_link_text runtime_std settings_std search_model
         broken_candidate (VStr "Hello") = Raise e.
Proof.
  split; [reflexivity|].
  exact (add_search_link_text_broken_chunk runtime_std settings_std search_model
           broken_candidate _ (VStr "Hello") broken_citation _
           eq_refl eq_refl eq_refl (or_intror (or_introl eq_refl)) eq_refl).
Defined.

(** X8 at two texts. *)
Lemma extract_result_joins_texts_witness :
  exists tool_calls w',
    _extract_result runtime_std settings_std
      (response_of [text_part "Hello, "; text_part "world"]) "gemini-pro"
      false false 0
    = (Ok (VStr "Hello, world", tool_calls, VNone), w').
Proof.
  assert (Ht : Forall2 has_text [text_part "Hello, "; text_part "world"]
                 ["Hello, "; "world"]).
  { apply Forall2_cons;
      [exists [("text", VStr "Hello, ")]; split; reflexivity|].
    apply Forall2_cons;
      [exists [("text", VStr "world")]; split; reflexivity|].
    apply Forall2_nil. }
  exact (extract_result_joins_texts runtime_std settings_std
           (response_of [text_part "Hello, "; text_part "world"]) _
           [text_part "Hello, "; text_part "world"] ["Hello, "; "world"]
           "gemini-pro" false 0 eq_refl Ht eq_refl eq_refl).
Defined.

(** X9 at a function call between two texts. *)
Lemma fragment_without_text_key_witness :
  normal_loop runtime_std settings_std ""
    [text_part "a"; lookup_call; text_part "b"] 0
  = normal_loop runtime_std settings_std "" [text_part "a"; text_part "b"] 0
  /\ stream_text runtime_std settings_std lookup_call 0 = (Ok (VStr ""), 0).
Proof.
  destruct (fragment_without_text_key runtime_std settings_std
              [("functionCall",
                VDict [("name", VStr "lookup"); ("args", VDict [("q", VStr "x")])])]
              eq_refl) as [Hloop Hstream].
  split.
  - exact (Hloop "" [text_part "a"] [text_part "b"] 0).
  - exact (Hstream 0).
Defined.

(** X10 at a text followed by a null fragment and a function call. *)
Lemma stream_reads_one_fragment_witness :
  agree (fun x y => fst (fst x) = fst (fst y) /\ snd x = snd y)
    (fst (_extract_result runtime_std settings_std
            (response_of [text_part "Hel"; VNone; lookup_call]) "gemini-pro"
            true false 0))
    (fst (_extract_result runtime_std settings_std
            (response_of [text_part "Hel"]) "gemini-pro" true false 0)).
Proof.
  exact (stream_reads_one_fragment runtime_std settings_std
           (response_of [text_part "Hel"; VNone; lookup_call])
           (response_of [text_part "Hel"]) _ _ [("text", VStr "Hel")]
           [VNone; lookup_call] "gemini-pro" false 0 eq_refl eq_refl eq_refl
           eq_refl).
Defined.

(** X11 at the response of one text. *)
Lemma extract_result_normal_text_is_str_witness :
  exists s, VStr "Hello" = VStr s.
Proof.
  exact (extract_result_normal_text_is_str runtime_std settings_std
           hello_response "gemini-pro" false 0 0 (VStr "Hello") [] VNone
           eq_refl).
Defined.

(** X12 at a response with grounding metadata: the builder keeps it. *)
Lemma native_builder_frame_witness :
  exists candidate candidate' others,
    py_getitem (grounded_response "Hello") "candidates"
    = Ok (VList (candidate :: others))
    /\ py_getitem (grounded_response "Hello") "candidates"
       = Ok (VList (candidate' :: others))
    /\ (forall k, String.eqb k "content" = false ->
                  py_getitem candidate' k = py_getitem candidate k)
    /\ (content <- py_getitem candidate' "content" ;;
        py_getitem content "role") = Ok (VStr "model").
Proof.
  exact (proj2 (native_builder_frame runtime_std settings_std
                  GeminiResponseHandler_init (grounded_response "Hello")
                  "gemini-pro" false VNone 0 0 (grounded_response "Hello")
                  eq_refl)).
Defined.

(** X13 at a thought with no text before an answer, in full. *)
Lemma native_builder_parts_witness :
  exists x,
    _extract_result runtime_std settings_std bare_thought_response "gemini-pro"
      false true 0 = (Ok x, 0)
    /\ content_parts
         (response_of [VDict [("text", VStr ""); ("thought", VBool true)];
                       text_part "answer"])
       = Ok (VList (native_parts true x)).
Proof.
  exact (native_builder_parts runtime_std settings_std
           GeminiResponseHandler_init bare_thought_response "gemini-pro" false
           VNone 0 0
           (response_of [VDict [("text", VStr ""); ("thought", VBool true)];
                         text_part "answer"])
           eq_refl).
Defined.

(** X14 at the empty response, in both modes. *)
Lemma native_builder_needs_candidate_witness :
  (exists e,
     GeminiResponseHandler_handle_response runtime_std settings_std
       GeminiResponseHandler_init (VDict []) "gemini-pro" true VNone 0
     = (Raise e, 0))
  /\ exists e,
       GeminiResponseHandler_handle_response runtime_std settings_std
         GeminiResponseHandler_init (VDict [("candidates", VList [])])
         "gemini-pro" false VNone 0 = (Raise e, 0).
Proof.
  split.
  - exact (native_builder_needs_candidate runtime_std settings_std
             GeminiResponseHandler_init (VDict []) "gemini-pro" true VNone 0
             eq_refl).
  - exact (native_builder_needs_candidate runtime_std settings_std
             GeminiResponseHandler_init (VDict [("candidates", VList [])])
             "gemini-pro" false VNone 0 eq_refl).
Defined.

(** X15 at the response of one text with a total count only. *)
Lemma stream_chunk_usage_witness :
  exists chunk w2,
    _handle_openai_stream_response runtime_std settings_std hello_response
      "gemini-pro" (VStr "stop") (VDict [("totalTokenCount", VInt 7)]) 0
    = (Ok chunk, w2)
    /\ py_getitem chunk "usage"
       = Ok (VDict [("prompt_tokens", VInt 0); ("completion_tokens", VInt 0);
                    ("total_tokens", VInt 7)]).
Proof.
  destruct (stream_chunk_usage runtime_std settings_std hello_response
              "gemini-pro" (VStr "stop") (VDict [("totalTokenCount", VInt 7)])
              0 0 (VStr "Hello") [] VNone eq_refl eq_refl)
    as (chunk & w2 & Hb & _ & _ & Hu).
  exists chunk, w2. split; [exact Hb|].
  exact (Hu _ eq_refl eq_refl).
Defined.

(** X17 at a thinking model: the function call at position 2 has index 1. *)
Lemma tool_call_index_after_thought_witness :
  _extract_result runtime_std settings_std
    (response_of [text_part "reasoning..."; text_part "answer"; lookup_call])
    thinking_model false false 0
  = (Ok (VStr "answer",
         [tool_call 1 "call_abcdefghijklmnopqrstuvwxyz012345" (VStr "lookup")
            lookup_arguments],
         VStr "reasoning..."), 1)
  /\ List.length
       (filter (has_index 1)
          [tool_call 1 "call_abcdefghijklmnopqrstuvwxyz012345" (VStr "lookup")
             lookup_arguments]) = 1.
Proof.
  split; [reflexivity|].
  exact (proj2 (tool_call_index_after_thought runtime_std settings_std
                  (response_of [text_part "reasoning..."; text_part "answer";
                                lookup_call]) _
                  [text_part "reasoning..."; text_part "answer"; lookup_call]
                  thinking_model false 0 1 (VStr "answer")
                  [tool_call 1 "call_abcdefghijklmnopqrstuvwxyz012345"
                     (VStr "lookup") lookup_arguments]
                  (VStr "reasoning...") eq_refl eq_refl eq_refl)
           1 lookup_call eq_refl eq_refl).
Defined.

(** X18 under settings that name the provider imgur. *)
Lemma unknown_provider_raises_witness :
  exists e w',
    _extract_image_data runtime_std settings_unknown_provider
      (image_part "aGk=") 0 = (Raise e, w').
Proof.
  exact (proj1 (unknown_provider_raises runtime_std settings_unknown_provider
                  eq_refl eq_refl eq_refl) (image_part "aGk=") 0).
Defined.

(** X19 at the thinking scenario with empty usage metadata. *)
Lemma normal_response_envelope_witness :
  exists data w2,
    _handle_openai_normal_response runtime_std settings_std thinking_response
      thinking_model (VStr "stop") (VDict []) 0 = (Ok data, w2)
    /\ py_getitem data "thought" = Ok (VStr "reasoning...")
    /\ choice_finish_reason data = Ok (VStr "stop").
Proof.
  destruct (normal_response_envelope runtime_std settings_std thinking_response
              thinking_model (VStr "stop") [] 0 0 (VStr "answer") []
              (VStr "reasoning...") eq_refl)
    as (data & w2 & Hb & _ & Hf & _ & _ & _ & Ht).
  exists data, w2. split; [exact Hb|]. split; [exact (Ht eq_refl) | exact Hf].
Defined.
